(** * EAN-13 middle-section decoder (core/src/oned/ODEAN13Reader.cpp)

    A shallow embedding of [DetermineFirstDigit] and
    [EAN13Reader::decodeMiddle], followed by the properties of the
    decoder that the specification states about them. *)

From Stdlib Require Import ZArith Ascii String List Bool Lia Sorted.
Import ListNotations.
Open Scope Z_scope.

(** ** Machine integers and characters *)

Definition INT_MIN : Z := - 2 ^ 31.
Definition INT_MAX : Z := 2 ^ 31 - 1.

(** A C++ [int] is kept as a [Z]; an addition that leaves the 32-bit
    range wraps around (two's complement). *)
Definition wrap_int (z : Z) : Z := (z + 2 ^ 31) mod 2 ^ 32 - 2 ^ 31.

Definition int_add (a b : Z) : Z := wrap_int (a + b).

(** [a % b] of C++ truncates towards zero: it is [Z.rem], not [Z.modulo]. *)
Definition int_rem (a b : Z) : Z := Z.rem a b.

(** The conversion [(char) i] keeps the low eight bits. *)
Definition to_char (i : Z) : ascii := ascii_of_N (Z.to_N (i mod 256)).

(** The code of ['0']. *)
Definition zero_char : Z := 48.

(** [c] is one of ['0'..'9']. *)
Definition is_digit (c : ascii) : bool :=
  let n := Z.of_N (N_of_ascii c) in (48 <=? n) && (n <=? 57).

(** [(char)('0' + bestMatch % 10)], line 101. *)
Definition left_char (bestMatch : Z) : ascii :=
  to_char (zero_char + int_rem bestMatch 10).

(** [(char)('0' + bestMatch)], line 127. *)
Definition right_char (bestMatch : Z) : ascii :=
  to_char (int_add zero_char bestMatch).

(** ** Data of the reader *)

(** Modelled from the spec: ErrorStatus.h is not part of the sources; the
    spec gives the two statuses the reader produces, [Ok] (the code's
    [ErrorStatus::NoError]) and [NotFound]. *)
Inductive ErrorStatus : Type := NoError | NotFound.

(** Modelled from the spec: [StatusIsError] (ErrorStatus.h) holds of every
    status other than success. *)
Definition StatusIsError (s : ErrorStatus) : bool :=
  match s with NoError => false | NotFound => true end.

(** A [BitArray] row: one [bool] per pixel, [true] for a set (dark) bit. *)
Definition BitArray : Type := list bool.

Definition size (row : BitArray) : Z := Z.of_nat (length row).

(** [std::array<int, 4>]. *)
Record Counters : Type := mkCounters { c0 : Z; c1 : Z; c2 : Z; c3 : Z }.

Definition counters_list (c : Counters) : list Z := [c0 c; c1 c; c2 c; c3 c].

Definition counters_sum (c : Counters) : Z := c0 c + c1 c + c2 c + c3 c.

(** [std::array<int, 4> counters = {}]. *)
Definition no_counters : Counters := mkCounters 0 0 0 0.

(** [std::string]. *)
Definition cstring : Type := list ascii.

(** [s.push_back(c)]. *)
Definition push_back (s : cstring) (c : ascii) : cstring := s ++ [c].

(** [s.insert(0, 1, c)]. *)
Definition insert_front (s : cstring) (c : ascii) : cstring := c :: s.

(** ** Pattern tables *)

(** Modelled from the spec: the L-patterns of UPCEANReader (section 6,
    pattern-table literals). *)
Definition L_PATTERNS : list (list Z) :=
  [ [3;2;1;1]; [2;2;2;1]; [2;1;2;2]; [1;4;1;1]; [1;1;3;2];
    [1;2;3;1]; [1;1;1;4]; [1;3;1;2]; [1;2;1;3]; [3;1;1;2] ].

(** Modelled from the spec: the 20-entry table, the L-patterns followed by
    the G-patterns, each G-pattern being its L-pattern reversed. *)
Definition L_AND_G_PATTERNS : list (list Z) :=
  L_PATTERNS ++ map (@rev Z) L_PATTERNS.

(** Modelled from the spec: the middle guard, five runs of one module. *)
Definition MIDDLE_PATTERN : list Z := [1;1;1;1;1].

(** [FIRST_DIGIT_ENCODINGS], lines 55-57. *)
Definition FIRST_DIGIT_ENCODINGS : list Z :=
  [ 0x00; 0x0B; 0x0D; 0xE; 0x13; 0x19; 0x1C; 0x15; 0x16; 0x1A ].

(** The mapping [E] as the specification tabulates it. *)
Definition E_spec (d : Z) : Z :=
  match d with
  | 0 => 0x00 | 1 => 0x0B | 2 => 0x0D | 3 => 0x0E | 4 => 0x13
  | 5 => 0x19 | 6 => 0x1C | 7 => 0x15 | 8 => 0x16 | 9 => 0x1A
  | _ => 0
  end.

(** ** DetermineFirstDigit (lines 69-78) *)

(** The loop [for (int d = 0; d < 10; d++)], entered at [d]; [n] bounds the
    iterations still to run.  The result is the returned status and the
    result string as the call leaves it. *)
Fixpoint DetermineFirstDigit_from (n : nat) (d : Z)
    (resultString : cstring) (lgPatternFound : Z) : ErrorStatus * cstring :=
  match n with
  | O => (NotFound, resultString)
  | S n' =>
      if d <? 10 then
        if lgPatternFound =? nth (Z.to_nat d) FIRST_DIGIT_ENCODINGS 0 then
          (NoError, insert_front resultString (to_char (zero_char + d)))
        else DetermineFirstDigit_from n' (d + 1) resultString lgPatternFound
      else (NotFound, resultString)
  end.

Definition DetermineFirstDigit (resultString : cstring) (lgPatternFound : Z)
    : ErrorStatus * cstring :=
  DetermineFirstDigit_from 10 0 resultString lgPatternFound.

(** ** decodeMiddle (lines 87-133) *)

(** The variables of [decodeMiddle] that live across its loops. *)
Record Locals : Type := mkLocals {
  rowOffset : Z;
  resultString : cstring;
  counters : Counters;
  lgPatternFound : Z
}.

(** How a loop is left: [Some status] when its body executed
    [return status], [None] when its condition became false.  The second
    component is the loop variable [x] at that point, the third the
    locals; at a [return] they are kept for [rowOffset] and
    [resultString], the reference parameters that outlive the call (what
    the failed call left in [counters] dies with the frame). *)
Definition Flow : Type := (option ErrorStatus * Z * Locals)%type.

Definition flow_return (f : Flow) : option ErrorStatus := fst (fst f).
Definition flow_x (f : Flow) : Z := snd (fst f).
Definition flow_locals (f : Flow) : Locals := snd f.

(** What [decodeMiddle] hands back: the status, and the two in-out
    parameters [rowOffset] and [resultString] as it leaves them. *)
Definition Outcome : Type := (ErrorStatus * Z * cstring)%type.

Definition out_status (o : Outcome) : ErrorStatus := fst (fst o).
Definition out_rowOffset (o : Outcome) : Z := snd (fst o).
Definition out_result (o : Outcome) : cstring := snd o.

Module EAN13Reader.

Section Decoder.

(** The two collaborators of UPCEANReader, which the sources do not
    include.  [DecodeDigit row rowOffset patterns counters bestMatch]
    returns its status with the values it leaves in the reference
    parameters [counters] and [bestMatch]; [FindGuardPattern row
    rowOffset whiteFirst pattern] returns its status with the values it
    leaves in [begin] and [end]. *)
Variable DecodeDigit :
  BitArray -> Z -> list (list Z) -> Counters -> Z -> ErrorStatus * Counters * Z.
Variable FindGuardPattern :
  BitArray -> Z -> bool -> list Z -> ErrorStatus * Z * Z.

Variable row : BitArray.

(** [for (int counter : counters) rowOffset += counter;] *)
Definition advance (off : Z) (cs : Counters) : Z :=
  fold_left int_add (counters_list cs) off.

(** The call of line 97 in the state [s] ([int bestMatch = 0] before it). *)
Definition left_digit (s : Locals) : ErrorStatus * Counters * Z :=
  DecodeDigit row (rowOffset s) L_AND_G_PATTERNS (counters s) 0.

(** Lines 101-107: the rest of the body of the first loop after a
    successful call.  The body runs under the loop condition, with
    [0 <= x < 6], so [5 - x] and [1 << (5 - x)] do not leave the range of
    [int]. *)
Definition left_body (x : Z) (s : Locals) (cs : Counters) (bestMatch : Z)
    : Locals :=
  {| rowOffset := advance (rowOffset s) cs;
     resultString :=
       push_back (resultString s) (left_char bestMatch);
     counters := cs;
     lgPatternFound :=
       if 10 <=? bestMatch
       then Z.lor (lgPatternFound s) (Z.shiftl 1 (5 - x))
       else lgPatternFound s |}.

(** Lines 95-108: [for (int x = 0; x < 6 && rowOffset < end; x++)],
    entered at [x] with at most [n] iterations still to run. *)
Fixpoint left_half (n : nat) (x : Z) (s : Locals) : Flow :=
  match n with
  | O => (None, x, s)
  | S n' =>
      if (x <? 6) && (rowOffset s <? size row) then
        let '(status, cs, bestMatch) := left_digit s in
        if StatusIsError status then
          (Some status, x, s)
        else left_half n' (x + 1) (left_body x s cs bestMatch)
      else (None, x, s)
  end.

(** The call of line 123. *)
Definition right_digit (s : Locals) : ErrorStatus * Counters * Z :=
  DecodeDigit row (rowOffset s) L_PATTERNS (counters s) 0.

(** Lines 127-130. *)
Definition right_body (s : Locals) (cs : Counters) (bestMatch : Z) : Locals :=
  {| rowOffset := advance (rowOffset s) cs;
     resultString :=
       push_back (resultString s) (right_char bestMatch);
     counters := cs;
     lgPatternFound := lgPatternFound s |}.

(** Lines 121-131. *)
Fixpoint right_half (n : nat) (x : Z) (s : Locals) : Flow :=
  match n with
  | O => (None, x, s)
  | S n' =>
      if (x <? 6) && (rowOffset s <? size row) then
        let '(status, cs, bestMatch) := right_digit s in
        if StatusIsError status then
          (Some status, x, s)
        else right_half n' (x + 1) (right_body s cs bestMatch)
      else (None, x, s)
  end.

(** Lines 121-132, from the state [s] that line 120 leaves. *)
Definition decode_right (s : Locals) : Outcome :=
  match right_half 6 0 s with
  | (Some status, _, s') => (status, rowOffset s', resultString s')
  | (None, _, s') => (NoError, rowOffset s', resultString s')
  end.

(** Lines 114-132: the search for the middle guard and what follows. *)
Definition decode_from_guard (s : Locals) : Outcome :=
  let '(status, middleRangeBegin, middleRangeEnd) :=
    FindGuardPattern row (rowOffset s) true MIDDLE_PATTERN in
  if StatusIsError status then (status, rowOffset s, resultString s)
  else
    decode_right
      {| rowOffset := middleRangeEnd; resultString := resultString s;
         counters := counters s; lgPatternFound := lgPatternFound s |}.

(** Lines 110-132, from the state [s] in which the first loop ended. *)
Definition decode_from_first_digit (s : Locals) : Outcome :=
  let '(status, res) := DetermineFirstDigit (resultString s) (lgPatternFound s) in
  if StatusIsError status then (status, rowOffset s, res)
  else
    decode_from_guard
      {| rowOffset := rowOffset s; resultString := res;
         counters := counters s; lgPatternFound := lgPatternFound s |}.

(** The locals on entry (lines 90-93). *)
Definition entry (rowOffset0 : Z) (resultString0 : cstring) : Locals :=
  {| rowOffset := rowOffset0; resultString := resultString0;
     counters := no_counters; lgPatternFound := 0 |}.

Definition decodeMiddle (rowOffset0 : Z) (resultString0 : cstring) : Outcome :=
  match left_half 6 0 (entry rowOffset0 resultString0) with
  | (Some status, _, s) => (status, rowOffset s, resultString s)
  | (None, _, s) => decode_from_first_digit s
  end.

(** *** The digits a run decodes

    The best matches of the successful calls of line 97, in the order
    of the iterations of [left_half n x s]. *)
Fixpoint left_matches (n : nat) (x : Z) (s : Locals) : list Z :=
  match n with
  | O => []
  | S n' =>
      if (x <? 6) && (rowOffset s <? size row) then
        let '(status, cs, bestMatch) := left_digit s in
        if StatusIsError status then []
        else bestMatch :: left_matches n' (x + 1) (left_body x s cs bestMatch)
      else []
  end.

(** The same for the calls of line 123. *)
Fixpoint right_matches (n : nat) (x : Z) (s : Locals) : list Z :=
  match n with
  | O => []
  | S n' =>
      if (x <? 6) && (rowOffset s <? size row) then
        let '(status, cs, bestMatch) := right_digit s in
        if StatusIsError status then []
        else bestMatch :: right_matches n' (x + 1) (right_body s cs bestMatch)
      else []
  end.

(** The locals when the first loop is left. *)
Definition left_exit (rowOffset0 : Z) (resultString0 : cstring) : Locals :=
  flow_locals (left_half 6 0 (entry rowOffset0 resultString0)).

(** The locals with which a run that gets there enters the second loop
    (line 120 done). *)
Definition right_entry (rowOffset0 : Z) (resultString0 : cstring) : Locals :=
  let s := left_exit rowOffset0 resultString0 in
  {| rowOffset := snd (FindGuardPattern row (rowOffset s) true MIDDLE_PATTERN);
     resultString := snd (DetermineFirstDigit (resultString s) (lgPatternFound s));
     counters := counters s;
     lgPatternFound := lgPatternFound s |}.

(** The values of the cursor at the head of the first loop after 0, 1,
    ..., 6 rounds of it, then at the head of the second loop after 0, 1,
    ..., 6 rounds of it (a loop that is left early keeps its cursor). *)
Definition cursor_history (rowOffset0 : Z) (resultString0 : cstring) : list Z :=
  map (fun n => rowOffset (flow_locals
                 (left_half n 0 (entry rowOffset0 resultString0)))) (seq 0 7)
  ++ map (fun n => rowOffset (flow_locals
                 (right_half n 0 (right_entry rowOffset0 resultString0)))) (seq 0 7).

(** *** Contracts of the collaborators (specification, 4.3 and 4.4) *)

(** The matcher answers with an index into the table it was given. *)
Definition matcher_index_contract (patterns : list (list Z)) : Prop :=
  forall off cs0 bm0 cs bm,
    DecodeDigit row off patterns cs0 bm0 = (NoError, cs, bm) ->
    0 <= bm < Z.of_nat (length patterns).

(** The counters are the lengths of four runs of the row that start at
    the cursor. *)
Definition matcher_runs_contract (patterns : list (list Z)) : Prop :=
  forall off cs0 bm0 cs bm,
    DecodeDigit row off patterns cs0 bm0 = (NoError, cs, bm) ->
    0 <= c0 cs /\ 0 <= c1 cs /\ 0 <= c2 cs /\ 0 <= c3 cs
    /\ off + counters_sum cs <= size row.

(** The guard finder answers with a span of the row, not empty, at or
    after the cursor. *)
Definition guard_contract : Prop :=
  forall off b e,
    FindGuardPattern row off true MIDDLE_PATTERN = (NoError, b, e) ->
    off <= b /\ b < e /\ e <= size row.

End Decoder.

End EAN13Reader.

Import EAN13Reader.

(** ** Reference collaborators on idealised scanlines

    An instance of the two collaborators for scanlines drawn at one bit
    per module, after their contracts in the specification (sections 4.3
    and 4.4): the matcher reads the four runs that start at the cursor and
    accepts them when they are an entry of the table, the guard finder
    walks the runs from the cursor on and accepts the first white run that
    starts the pattern.  The examples below run the decoder on them. *)
Module Ideal.

(** The length of the run of [colour] that [bits] starts with. *)
Fixpoint run_length (colour : bool) (bits : list bool) : nat :=
  match bits with
  | b :: rest => if Bool.eqb b colour then S (run_length colour rest) else O
  | [] => O
  end.

(** The widths of the four alternating runs that [bits] starts with,
    when it has four (the last one may reach the end of the row). *)
Definition record_pattern (bits : list bool) : option Counters :=
  match bits with
  | [] => None
  | b :: _ =>
      let r0 := run_length b bits in
      let bits1 := skipn r0 bits in
      let r1 := run_length (negb b) bits1 in
      let bits2 := skipn r1 bits1 in
      let r2 := run_length b bits2 in
      let bits3 := skipn r2 bits2 in
      let r3 := run_length (negb b) bits3 in
      if (r3 =? 0)%nat then None
      else Some (mkCounters (Z.of_nat r0) (Z.of_nat r1) (Z.of_nat r2) (Z.of_nat r3))
  end.

Fixpoint widths_eqb (a b : list Z) : bool :=
  match a, b with
  | [], [] => true
  | x :: a', y :: b' => (x =? y) && widths_eqb a' b'
  | _, _ => false
  end.

(** The index of the first entry of [patterns] equal to [widths],
    counted from [i]. *)
Fixpoint find_pattern (widths : list Z) (patterns : list (list Z)) (i : Z)
    : option Z :=
  match patterns with
  | [] => None
  | p :: rest =>
      if widths_eqb widths p then Some i else find_pattern widths rest (i + 1)
  end.

(** Modelled from the spec: the digit matcher of UPCEANReader (section
    4.3), which the sources do not include, for one bit per module: it
    reads four alternating runs from the cursor, emits their lengths,
    answers with the index of the table entry they are, and with
    [NotFound] when fewer than four runs remain or no entry fits.  It
    does not move the cursor. *)
Definition DecodeDigit (row : BitArray) (rowOffset : Z)
    (patterns : list (list Z)) (counters : Counters) (bestMatch : Z)
    : ErrorStatus * Counters * Z :=
  if (rowOffset <? 0) || (size row <=? rowOffset) then
    (NotFound, counters, bestMatch)
  else
    match record_pattern (skipn (Z.to_nat rowOffset) row) with
    | None => (NotFound, counters, bestMatch)
    | Some cs =>
        match find_pattern (counters_list cs) patterns 0 with
        | Some i => (NoError, cs, i)
        | None => (NotFound, cs, bestMatch)
        end
    end.

(** [bits] starts with runs of exactly the widths of [pattern], the
    first one of [colour]. *)
Fixpoint starts_with_runs (colour : bool) (pattern : list Z)
    (bits : list bool) : bool :=
  match pattern with
  | [] => true
  | w :: pattern' =>
      let r := run_length colour bits in
      (0 <? w) && (Z.of_nat r =? w)
      && starts_with_runs (negb colour) pattern' (skipn r bits)
  end.

(** The walk over the runs of [bits], whose first bit has index [p]:
    skip a run of the other colour, try the pattern at the run of
    [colour] that follows, and move on by that run otherwise. *)
Fixpoint find_guard (fuel : nat) (bits : list bool) (p : Z) (colour : bool)
    (pattern : list Z) : ErrorStatus * Z * Z :=
  match fuel with
  | O => (NotFound, 0, 0)
  | S fuel' =>
      let skipped := run_length (negb colour) bits in
      let bits' := skipn skipped bits in
      let p' := p + Z.of_nat skipped in
      match bits' with
      | [] => (NotFound, 0, 0)
      | _ :: _ =>
          if starts_with_runs colour pattern bits' then
            (NoError, p', p' + fold_right Z.add 0 pattern)
          else
            let r := run_length colour bits' in
            find_guard fuel' (skipn r bits') (p' + Z.of_nat r) colour pattern
      end
  end.

(** Modelled from the spec: the guard finder of UPCEANReader (section
    4.4), which the sources do not include, for one bit per module: it
    scans forward from the cursor for the earliest run of the asked
    colour at which the runs have the widths of the pattern, and answers
    with the bounds of that span, or with [NotFound]. *)
Definition FindGuardPattern (row : BitArray) (rowOffset : Z)
    (whiteFirst : bool) (pattern : list Z) : ErrorStatus * Z * Z :=
  if rowOffset <? 0 then (NotFound, 0, 0)
  else
    let bits := skipn (Z.to_nat rowOffset) row in
    find_guard (S (length bits)) bits rowOffset (negb whiteFirst) pattern.

(** [decodeMiddle] on these collaborators. *)
Definition decode (row : BitArray) (rowOffset : Z) (resultString : cstring)
    : Outcome :=
  decodeMiddle DecodeDigit FindGuardPattern row rowOffset resultString.

(** *** Drawing scanlines *)

(** Runs of the given widths, alternating from [colour]. *)
Fixpoint draw (colour : bool) (widths : list Z) : list bool :=
  match widths with
  | [] => []
  | w :: ws => repeat colour (Z.to_nat w) ++ draw (negb colour) ws
  end.

(** A left-half symbol: entry [i] of the L-and-G table, space first. *)
Definition left_symbol (i : nat) : list bool :=
  draw false (nth i L_AND_G_PATTERNS []).

(** A right-half symbol: entry [i] of the L table, bar first. *)
Definition right_symbol (i : nat) : list bool :=
  draw true (nth i L_PATTERNS []).

Definition side_guard : list bool := [true; false; true].

(** Left guard, the left symbols, middle guard, the right symbols,
    right guard. *)
Definition scanline (left right : list nat) : BitArray :=
  side_guard ++ flat_map left_symbol left ++ draw false MIDDLE_PATTERN
  ++ flat_map right_symbol right ++ side_guard.

(** 5 901234 123457: parities L G G L L G. *)
Definition row_5901234123457 : BitArray :=
  scanline [9; 10; 11; 2; 3; 14]%nat [1; 2; 3; 4; 5; 7]%nat.

(** 9 780201 379624: parities L G G L G L. *)
Definition row_9780201379624 : BitArray :=
  scanline [7; 18; 10; 2; 10; 1]%nat [3; 7; 9; 6; 2; 4]%nat.

(** 0 000000 000000. *)
Definition row_zeros : BitArray :=
  scanline [0; 0; 0; 0; 0; 0]%nat [0; 0; 0; 0; 0; 0]%nat.

(** Parities L L L G G G: the mask 0x07, which encodes no digit. *)
Definition row_mask_07 : BitArray :=
  scanline [1; 2; 3; 14; 15; 16]%nat [1; 2; 3; 4; 5; 7]%nat.

(** The row of 5 901234 123457 cut at the end of its third right-half
    symbol. *)
Definition row_cut_right : BitArray :=
  side_guard ++ flat_map left_symbol [9; 10; 11; 2; 3; 14]%nat
  ++ draw false MIDDLE_PATTERN ++ flat_map right_symbol [1; 2; 3]%nat.

(** The same row cut at the end of its third left-half symbol. *)
Definition row_cut_left : BitArray :=
  side_guard ++ flat_map left_symbol [9; 10; 11]%nat.

End Ideal.


(** ** The parity of a list of best matches

    [parity_bit x ms y]: among the best matches [ms] of the rounds [x],
    [x + 1], ..., the one of round [y] is an index into the G half of the
    table (10 or more). *)
Fixpoint parity_bit (x : Z) (ms : list Z) (y : Z) : bool :=
  match ms with
  | [] => false
  | bm :: ms' => if y =? x then 10 <=? bm else parity_bit (x + 1) ms' y
  end.

(** * Properties *)

(** ** Machine integers and characters *)

Lemma wrap_int_exact (z : Z) : INT_MIN <= z <= INT_MAX -> wrap_int z = z.
Proof.
  unfold wrap_int, INT_MIN, INT_MAX. intros H.
  rewrite Z.mod_small by lia. lia.
Qed.

Lemma int_add_exact (a b : Z) :
  INT_MIN <= a + b <= INT_MAX -> int_add a b = a + b.
Proof. apply wrap_int_exact. Qed.

Lemma int_rem_nonneg (a : Z) : 0 <= a -> int_rem a 10 = a mod 10.
Proof. intros H. unfold int_rem. apply Z.rem_mod_nonneg; lia. Qed.

Lemma to_char_digit (d : Z) : 0 <= d < 10 -> is_digit (to_char (zero_char + d)) = true.
Proof.
  intros H.
  assert (Hd : d = 0 \/ d = 1 \/ d = 2 \/ d = 3 \/ d = 4 \/ d = 5 \/ d = 6
               \/ d = 7 \/ d = 8 \/ d = 9) by lia.
  repeat (destruct Hd as [-> | Hd]; [reflexivity |]). subst d. reflexivity.
Qed.

(** ** The first-digit table and its resolver *)

(** What the scan of the table returns, case by case on the mask. *)
Lemma DetermineFirstDigit_cases (res : cstring) (P : Z) :
  DetermineFirstDigit res P =
    if P =? 0 then (NoError, to_char 48 :: res)
    else if P =? 11 then (NoError, to_char 49 :: res)
    else if P =? 13 then (NoError, to_char 50 :: res)
    else if P =? 14 then (NoError, to_char 51 :: res)
    else if P =? 19 then (NoError, to_char 52 :: res)
    else if P =? 25 then (NoError, to_char 53 :: res)
    else if P =? 28 then (NoError, to_char 54 :: res)
    else if P =? 21 then (NoError, to_char 55 :: res)
    else if P =? 22 then (NoError, to_char 56 :: res)
    else if P =? 26 then (NoError, to_char 57 :: res)
    else (NotFound, res).
Proof.
  unfold DetermineFirstDigit. cbn -[Z.eqb to_char].
  repeat (destruct (P =? _); [reflexivity |]). reflexivity.
Qed.

(** The resolver either fails and hands the string back, or succeeds with
    one digit put in front of it. *)
Lemma DetermineFirstDigit_shape (res : cstring) (P : Z) :
  (~ In P FIRST_DIGIT_ENCODINGS /\ DetermineFirstDigit res P = (NotFound, res))
  \/ exists d, 0 <= d < 10
       /\ nth (Z.to_nat d) FIRST_DIGIT_ENCODINGS 0 = P
       /\ DetermineFirstDigit res P = (NoError, to_char (zero_char + d) :: res).
Proof.
  rewrite DetermineFirstDigit_cases.
  destruct (P =? 0) eqn:E0; [right; exists 0; apply Z.eqb_eq in E0; subst; repeat split; lia |].
  destruct (P =? 11) eqn:E1; [right; exists 1; apply Z.eqb_eq in E1; subst; repeat split; lia |].
  destruct (P =? 13) eqn:E2; [right; exists 2; apply Z.eqb_eq in E2; subst; repeat split; lia |].
  destruct (P =? 14) eqn:E3; [right; exists 3; apply Z.eqb_eq in E3; subst; repeat split; lia |].
  destruct (P =? 19) eqn:E4; [right; exists 4; apply Z.eqb_eq in E4; subst; repeat split; lia |].
  destruct (P =? 25) eqn:E5; [right; exists 5; apply Z.eqb_eq in E5; subst; repeat split; lia |].
  destruct (P =? 28) eqn:E6; [right; exists 6; apply Z.eqb_eq in E6; subst; repeat split; lia |].
  destruct (P =? 21) eqn:E7; [right; exists 7; apply Z.eqb_eq in E7; subst; repeat split; lia |].
  destruct (P =? 22) eqn:E8; [right; exists 8; apply Z.eqb_eq in E8; subst; repeat split; lia |].
  destruct (P =? 26) eqn:E9; [right; exists 9; apply Z.eqb_eq in E9; subst; repeat split; lia |].
  left. split; [| reflexivity].
  unfold FIRST_DIGIT_ENCODINGS. cbn [In]. lia.
Qed.

(** C7: the table of the code is the mapping E of the specification,
    digit by digit, and its ten entries are pairwise distinct, so E is
    injective on 0..9. *)
Theorem FIRST_DIGIT_ENCODINGS_is_E :
  map E_spec [0; 1; 2; 3; 4; 5; 6; 7; 8; 9] = FIRST_DIGIT_ENCODINGS
  /\ NoDup FIRST_DIGIT_ENCODINGS
  /\ forall d1 d2, 0 <= d1 < 10 -> 0 <= d2 < 10 ->
       nth (Z.to_nat d1) FIRST_DIGIT_ENCODINGS 0
       = nth (Z.to_nat d2) FIRST_DIGIT_ENCODINGS 0 -> d1 = d2.
Proof.
  split; [reflexivity |].
  assert (ND : NoDup FIRST_DIGIT_ENCODINGS).
  { unfold FIRST_DIGIT_ENCODINGS.
    repeat (constructor; [cbn; intros H; repeat (destruct H as [H | H]; [discriminate |]); exact H |]).
    constructor. }
  split; [exact ND |].
  intros d1 d2 H1 H2 H.
  assert (L1 : (Z.to_nat d1 < length FIRST_DIGIT_ENCODINGS)%nat) by (cbn; lia).
  assert (L2 : (Z.to_nat d2 < length FIRST_DIGIT_ENCODINGS)%nat) by (cbn; lia).
  pose proof (proj1 (NoDup_nth FIRST_DIGIT_ENCODINGS 0) ND _ _ L1 L2 H). lia.
Qed.

(** Two digits with the same entry of the table are the same digit. *)
Lemma first_digit_index_unique (d1 d2 : Z) :
  0 <= d1 < 10 -> 0 <= d2 < 10 ->
  nth (Z.to_nat d1) FIRST_DIGIT_ENCODINGS 0
  = nth (Z.to_nat d2) FIRST_DIGIT_ENCODINGS 0 ->
  d1 = d2.
Proof.
  intros H1 H2.
  assert (C1 : d1 = 0 \/ d1 = 1 \/ d1 = 2 \/ d1 = 3 \/ d1 = 4 \/ d1 = 5
               \/ d1 = 6 \/ d1 = 7 \/ d1 = 8 \/ d1 = 9) by lia.
  assert (C2 : d2 = 0 \/ d2 = 1 \/ d2 = 2 \/ d2 = 3 \/ d2 = 4 \/ d2 = 5
               \/ d2 = 6 \/ d2 = 7 \/ d2 = 8 \/ d2 = 9) by lia.
  clear H1 H2.
  repeat (destruct C1 as [-> | C1]);
    repeat (destruct C2 as [-> | C2]); subst;
    cbn; intros H; first [reflexivity | discriminate H].
Qed.

(** C3: the resolver answers NotFound exactly on the masks that are no
    entry of the table, and on the mask E(d) of a digit d it answers
    success and leaves the result string with the character of code
    48 + d, that is '0' + d, at position 0 and the given string after it;
    entry by entry, the ten masks of the table give the ten characters
    '0' to '9'.  The comparison is equality of the integers. *)
Theorem DetermineFirstDigit_exact (res : cstring) (P : Z) :
  (fst (DetermineFirstDigit res P) = NotFound <-> ~ In P FIRST_DIGIT_ENCODINGS)
  /\ (~ In P FIRST_DIGIT_ENCODINGS -> DetermineFirstDigit res P = (NotFound, res))
  /\ (forall d, 0 <= d < 10 ->
        P = nth (Z.to_nat d) FIRST_DIGIT_ENCODINGS 0 ->
        DetermineFirstDigit res P
        = (NoError, ascii_of_N (Z.to_N (48 + d)) :: res))
  /\ map (DetermineFirstDigit res) FIRST_DIGIT_ENCODINGS
     = [ (NoError, "0"%char :: res); (NoError, "1"%char :: res);
         (NoError, "2"%char :: res); (NoError, "3"%char :: res);
         (NoError, "4"%char :: res); (NoError, "5"%char :: res);
         (NoError, "6"%char :: res); (NoError, "7"%char :: res);
         (NoError, "8"%char :: res); (NoError, "9"%char :: res) ].
Proof.
  split; [| split; [| split; [| reflexivity]]].
  - destruct (DetermineFirstDigit_shape res P) as [[HN HR] | (d' & Hd' & Hn & Hr)].
    + rewrite HR. tauto.
    + rewrite Hr. split; [discriminate |]. intros HN. exfalso. apply HN.
      subst P. apply nth_In. cbn. lia.
  - intros HN.
    destruct (DetermineFirstDigit_shape res P) as [[_ HR] | (d' & Hd' & Hn & _)];
      [exact HR |].
    exfalso. apply HN. subst P. apply nth_In. cbn. lia.
  - intros d Hd HP.
    destruct (DetermineFirstDigit_shape res P) as [[HN _] | (d' & Hd' & Hn & Hr)].
    + exfalso. apply HN. subst P. apply nth_In. cbn. lia.
    + assert (Hdd : d' = d)
        by (apply first_digit_index_unique; [assumption .. | congruence]).
      subst d'. rewrite Hr. clear Hr Hn HP.
      assert (Hc : d = 0 \/ d = 1 \/ d = 2 \/ d = 3 \/ d = 4 \/ d = 5 \/ d = 6
                   \/ d = 7 \/ d = 8 \/ d = 9) by lia.
      repeat (destruct Hc as [-> | Hc]; [reflexivity |]). subst d. reflexivity.
Qed.

(** C8: when the resolver answers NotFound the result string is the one it
    was given; when it answers success the string is the given one with
    exactly one character put in front. *)
Theorem DetermineFirstDigit_atomic (res : cstring) (P : Z) :
  match DetermineFirstDigit res P with
  | (NotFound, res') => res' = res
  | (NoError, res') => exists c, res' = c :: res /\ length res' = S (length res)
  end.
Proof.
  destruct (DetermineFirstDigit_shape res P) as [[_ ->] | (d & _ & _ & ->)].
  - reflexivity.
  - eexists. split; reflexivity.
Qed.

(** ** The parity mask *)

Lemma set_parity_bit (P x j : Z) :
  0 <= x < 6 -> 0 <= j ->
  Z.testbit (Z.lor P (Z.shiftl 1 (5 - x))) j = Z.testbit P j || (5 - j =? x).
Proof.
  intros Hx Hj.
  rewrite Z.lor_spec, Z.shiftl_1_l, Z.pow2_bits_eqb by lia.
  f_equal. destruct (Z.eqb_spec (5 - x) j), (Z.eqb_spec (5 - j) x); lia.
Qed.

Lemma set_parity_bit_bound (P x : Z) :
  0 <= P < 64 -> 0 <= x < 6 -> 0 <= Z.lor P (Z.shiftl 1 (5 - x)) < 64.
Proof.
  intros HP Hx. rewrite Z.shiftl_1_l.
  assert (HQ : 0 < 2 ^ (5 - x)) by (apply Z.pow_pos_nonneg; lia).
  assert (H0 : 0 <= Z.lor P (2 ^ (5 - x))) by (apply Z.lor_nonneg; lia).
  split; [exact H0 |].
  destruct (Z.eq_dec (Z.lor P (2 ^ (5 - x))) 0) as [-> | Hnz]; [lia |].
  change 64 with (2 ^ 6). apply Z.log2_lt_pow2; [lia |].
  rewrite Z.log2_lor by lia. rewrite Z.log2_pow2 by lia.
  destruct (Z.eq_dec P 0) as [-> | HPnz]; [change (Z.log2 0) with 0; lia |].
  assert (Z.log2 P < 6) by (apply Z.log2_lt_pow2; [lia | change (2 ^ 6) with 64; lia]).
  lia.
Qed.

Lemma parity_bit_below (x : Z) (ms : list Z) (y : Z) :
  y < x -> parity_bit x ms y = false.
Proof.
  revert x. induction ms as [| bm ms IH]; intros x Hy; [reflexivity |].
  cbn. destruct (Z.eqb_spec y x); [lia |]. apply IH. lia.
Qed.

Lemma parity_bit_nth (x : Z) (ms : list Z) (y : Z) :
  x <= y ->
  parity_bit x ms y = true
  <-> exists bm, nth_error ms (Z.to_nat (y - x)) = Some bm /\ 10 <= bm.
Proof.
  revert x. induction ms as [| bm ms IH]; intros x Hy.
  - cbn. split; [discriminate |]. intros (bm & H & _).
    destruct (Z.to_nat (y - x)); discriminate.
  - cbn [parity_bit]. destruct (Z.eqb_spec y x) as [-> | Hne].
    + replace (x - x) with 0 by lia. cbn. rewrite Z.leb_le. split.
      * intros H. exists bm. split; [reflexivity | exact H].
      * intros (bm' & H & Hb). congruence.
    + rewrite IH by lia.
      replace (Z.to_nat (y - x)) with (S (Z.to_nat (y - (x + 1)))) by lia.
      reflexivity.
Qed.

(** ** The two loops *)

Section Loops.

Variable DecodeDigit :
  BitArray -> Z -> list (list Z) -> Counters -> Z -> ErrorStatus * Counters * Z.
Variable FindGuardPattern :
  BitArray -> Z -> bool -> list Z -> ErrorStatus * Z * Z.
Variable row : BitArray.

Local Abbreviation left_half := (left_half DecodeDigit row).
Local Abbreviation right_half := (right_half DecodeDigit row).
Local Abbreviation left_digit := (left_digit DecodeDigit row).
Local Abbreviation right_digit := (right_digit DecodeDigit row).
Local Abbreviation left_matches := (left_matches DecodeDigit row).
Local Abbreviation right_matches := (right_matches DecodeDigit row).

Lemma StatusIsError_false (st : ErrorStatus) :
  StatusIsError st = false -> st = NoError.
Proof. destruct st; [reflexivity | discriminate]. Qed.

(** A property of [x] and the locals that every successful round of the
    first loop keeps holds however the loop is left. *)
Lemma left_half_invariant (Inv : Z -> Locals -> Prop) :
  (forall x s cs bm,
      Inv x s -> 0 <= x < 6 -> rowOffset s < size row ->
      left_digit s = (NoError, cs, bm) ->
      Inv (x + 1) (left_body x s cs bm)) ->
  forall n x s, 0 <= x -> Inv x s ->
    Inv (flow_x (left_half n x s)) (flow_locals (left_half n x s)).
Proof.
  intros Hstep. induction n as [| n IH]; intros x s Hx HI; [exact HI |].
  cbn [EAN13Reader.left_half].
  destruct ((x <? 6) && (rowOffset s <? size row)) eqn:Hc; [| exact HI].
  apply andb_true_iff in Hc. destruct Hc as [Hx6 Hoff].
  apply Z.ltb_lt in Hx6. apply Z.ltb_lt in Hoff.
  destruct (left_digit s) as [[st cs] bm] eqn:Hd.
  destruct (StatusIsError st) eqn:Hst; [exact HI |].
  apply StatusIsError_false in Hst. subst st.
  apply IH; [lia |]. apply Hstep; auto; lia.
Qed.

Lemma right_half_invariant (Inv : Z -> Locals -> Prop) :
  (forall x s cs bm,
      Inv x s -> 0 <= x < 6 -> rowOffset s < size row ->
      right_digit s = (NoError, cs, bm) ->
      Inv (x + 1) (right_body s cs bm)) ->
  forall n x s, 0 <= x -> Inv x s ->
    Inv (flow_x (right_half n x s)) (flow_locals (right_half n x s)).
Proof.
  intros Hstep. induction n as [| n IH]; intros x s Hx HI; [exact HI |].
  cbn [EAN13Reader.right_half].
  destruct ((x <? 6) && (rowOffset s <? size row)) eqn:Hc; [| exact HI].
  apply andb_true_iff in Hc. destruct Hc as [Hx6 Hoff].
  apply Z.ltb_lt in Hx6. apply Z.ltb_lt in Hoff.
  destruct (right_digit s) as [[st cs] bm] eqn:Hd.
  destruct (StatusIsError st) eqn:Hst; [exact HI |].
  apply StatusIsError_false in Hst. subst st.
  apply IH; [lia |]. apply Hstep; auto; lia.
Qed.

(** With the six rounds that [x < 6] allows, a loop that is left by its
    condition has [x = 6] or the cursor at or past the end of the row. *)
Lemma left_half_exit (n : nat) (x : Z) (s : Locals) :
  0 <= x <= 6 -> 6 - x <= Z.of_nat n ->
  flow_return (left_half n x s) = None ->
  flow_x (left_half n x s) = 6
  \/ flow_x (left_half n x s) < 6
     /\ size row <= rowOffset (flow_locals (left_half n x s)).
Proof.
  revert x s. induction n as [| n IH]; intros x s Hx Hn.
  - cbn. intros _. left. lia.
  - cbn [EAN13Reader.left_half].
    destruct (x <? 6) eqn:Hx6; cbn [andb].
    + apply Z.ltb_lt in Hx6.
      destruct (rowOffset s <? size row) eqn:Hoff.
      * destruct (left_digit s) as [[st cs] bm].
        destruct (StatusIsError st); [discriminate |].
        intros H. apply (IH (x + 1) _ ltac:(lia) ltac:(lia) H).
      * apply Z.ltb_ge in Hoff. intros _. right. cbn. lia.
    + apply Z.ltb_ge in Hx6. intros _. left. cbn. lia.
Qed.

Lemma right_half_exit (n : nat) (x : Z) (s : Locals) :
  0 <= x <= 6 -> 6 - x <= Z.of_nat n ->
  flow_return (right_half n x s) = None ->
  flow_x (right_half n x s) = 6
  \/ flow_x (right_half n x s) < 6
     /\ size row <= rowOffset (flow_locals (right_half n x s)).
Proof.
  revert x s. induction n as [| n IH]; intros x s Hx Hn.
  - cbn. intros _. left. lia.
  - cbn [EAN13Reader.right_half].
    destruct (x <? 6) eqn:Hx6; cbn [andb].
    + apply Z.ltb_lt in Hx6.
      destruct (rowOffset s <? size row) eqn:Hoff.
      * destruct (right_digit s) as [[st cs] bm].
        destruct (StatusIsError st); [discriminate |].
        intros H. apply (IH (x + 1) _ ltac:(lia) ltac:(lia) H).
      * apply Z.ltb_ge in Hoff. intros _. right. cbn. lia.
    + apply Z.ltb_ge in Hx6. intros _. left. cbn. lia.
Qed.

(** More rounds than [x < 6] allows change nothing: six are enough. *)
Lemma left_half_fuel (n m : nat) (x : Z) (s : Locals) :
  0 <= x -> 6 - x <= Z.of_nat n ->
  left_half (n + m) x s = left_half n x s.
Proof.
  revert x s. induction n as [| n IH]; intros x s Hx Hn.
  - destruct m; [reflexivity |]. cbn.
    destruct (Z.ltb_spec x 6); [lia | reflexivity].
  - cbn [Nat.add EAN13Reader.left_half].
    destruct ((x <? 6) && (rowOffset s <? size row)); [| reflexivity].
    destruct (left_digit s) as [[st cs] bm].
    destruct (StatusIsError st); [reflexivity |].
    apply IH; lia.
Qed.

Lemma right_half_fuel (n m : nat) (x : Z) (s : Locals) :
  0 <= x -> 6 - x <= Z.of_nat n ->
  right_half (n + m) x s = right_half n x s.
Proof.
  revert x s. induction n as [| n IH]; intros x s Hx Hn.
  - destruct m; [reflexivity |]. cbn.
    destruct (Z.ltb_spec x 6); [lia | reflexivity].
  - cbn [Nat.add EAN13Reader.right_half].
    destruct ((x <? 6) && (rowOffset s <? size row)); [| reflexivity].
    destruct (right_digit s) as [[st cs] bm].
    destruct (StatusIsError st); [reflexivity |].
    apply IH; lia.
Qed.

(** [n + 1] rounds are [n] rounds and, when the loop is still running,
    one more. *)
Lemma left_half_snoc (n : nat) (x : Z) (s : Locals) :
  left_half (S n) x s =
    match left_half n x s with
    | (None, x', s') => left_half 1 x' s'
    | f => f
    end.
Proof.
  revert x s. induction n as [| n IH]; intros x s; [reflexivity |].
  change (left_half (S (S n)) x s) with
    (if (x <? 6) && (rowOffset s <? size row) then
       let '(status, cs, bestMatch) := left_digit s in
       if StatusIsError status then (Some status, x, s)
       else left_half (S n) (x + 1) (left_body x s cs bestMatch)
     else (None, x, s)).
  cbn [EAN13Reader.left_half] in *.
  destruct ((x <? 6) && (rowOffset s <? size row)) eqn:Hc.
  - destruct (left_digit s) as [[st cs] bm].
    destruct (StatusIsError st); [reflexivity |]. apply IH.
  - rewrite Hc. reflexivity.
Qed.

Lemma right_half_snoc (n : nat) (x : Z) (s : Locals) :
  right_half (S n) x s =
    match right_half n x s with
    | (None, x', s') => right_half 1 x' s'
    | f => f
    end.
Proof.
  revert x s. induction n as [| n IH]; intros x s; [reflexivity |].
  change (right_half (S (S n)) x s) with
    (if (x <? 6) && (rowOffset s <? size row) then
       let '(status, cs, bestMatch) := right_digit s in
       if StatusIsError status then (Some status, x, s)
       else right_half (S n) (x + 1) (right_body s cs bestMatch)
     else (None, x, s)).
  cbn [EAN13Reader.right_half] in *.
  destruct ((x <? 6) && (rowOffset s <? size row)) eqn:Hc.
  - destruct (right_digit s) as [[st cs] bm].
    destruct (StatusIsError st); [reflexivity |]. apply IH.
  - rewrite Hc. reflexivity.
Qed.

(** *** What the loops append, and how often they run *)

Lemma left_half_trace (n : nat) (x : Z) (s : Locals) :
  flow_x (left_half n x s) = x + Z.of_nat (length (left_matches n x s))
  /\ resultString (flow_locals (left_half n x s))
     = resultString s ++ map left_char (left_matches n x s).
Proof.
  revert x s. induction n as [| n IH]; intros x s.
  - cbn. rewrite app_nil_r. split; [lia | reflexivity].
  - cbn [EAN13Reader.left_half EAN13Reader.left_matches].
    destruct ((x <? 6) && (rowOffset s <? size row));
      [| cbn; rewrite app_nil_r; split; [lia | reflexivity]].
    destruct (left_digit s) as [[st cs] bm].
    destruct (StatusIsError st);
      [cbn; rewrite app_nil_r; split; [lia | reflexivity] |].
    destruct (IH (x + 1) (left_body x s cs bm)) as [Hx Hr].
    rewrite Hx, Hr. cbn [length map resultString left_body].
    unfold push_back. rewrite <- app_assoc. split; [lia | reflexivity].
Qed.

Lemma right_half_trace (n : nat) (x : Z) (s : Locals) :
  flow_x (right_half n x s) = x + Z.of_nat (length (right_matches n x s))
  /\ resultString (flow_locals (right_half n x s))
     = resultString s ++ map right_char (right_matches n x s).
Proof.
  revert x s. induction n as [| n IH]; intros x s.
  - cbn. rewrite app_nil_r. split; [lia | reflexivity].
  - cbn [EAN13Reader.right_half EAN13Reader.right_matches].
    destruct ((x <? 6) && (rowOffset s <? size row));
      [| cbn; rewrite app_nil_r; split; [lia | reflexivity]].
    destruct (right_digit s) as [[st cs] bm].
    destruct (StatusIsError st);
      [cbn; rewrite app_nil_r; split; [lia | reflexivity] |].
    destruct (IH (x + 1) (right_body s cs bm)) as [Hx Hr].
    rewrite Hx, Hr. cbn [length map resultString right_body].
    unfold push_back. rewrite <- app_assoc. split; [lia | reflexivity].
Qed.

Lemma left_half_x_bounds (n : nat) (x : Z) (s : Locals) :
  0 <= x <= 6 -> x <= flow_x (left_half n x s) <= 6.
Proof.
  intros Hx.
  apply (left_half_invariant (fun x' _ => x <= x' <= 6)); [| lia | lia].
  intros; lia.
Qed.

Lemma right_half_x_bounds (n : nat) (x : Z) (s : Locals) :
  0 <= x <= 6 -> x <= flow_x (right_half n x s) <= 6.
Proof.
  intros Hx.
  apply (right_half_invariant (fun x' _ => x <= x' <= 6)); [| lia | lia].
  intros; lia.
Qed.

(** The best matches of a loop satisfy what the matcher promises of
    every successful call. *)
Lemma left_matches_Forall (Q : Z -> Prop) (n : nat) (x : Z) (s : Locals) :
  (forall off cs0 bm0 cs bm,
      DecodeDigit row off L_AND_G_PATTERNS cs0 bm0 = (NoError, cs, bm) -> Q bm) ->
  Forall Q (left_matches n x s).
Proof.
  intros HQ. revert x s. induction n as [| n IH]; intros x s; [constructor |].
  cbn [EAN13Reader.left_matches].
  destruct ((x <? 6) && (rowOffset s <? size row)); [| constructor].
  destruct (left_digit s) as [[st cs] bm] eqn:Hd.
  destruct (StatusIsError st) eqn:Hst; [constructor |].
  apply StatusIsError_false in Hst. subst st.
  constructor; [exact (HQ _ _ _ _ _ Hd) | apply IH].
Qed.

Lemma right_matches_Forall (Q : Z -> Prop) (n : nat) (x : Z) (s : Locals) :
  (forall off cs0 bm0 cs bm,
      DecodeDigit row off L_PATTERNS cs0 bm0 = (NoError, cs, bm) -> Q bm) ->
  Forall Q (right_matches n x s).
Proof.
  intros HQ. revert x s. induction n as [| n IH]; intros x s; [constructor |].
  cbn [EAN13Reader.right_matches].
  destruct ((x <? 6) && (rowOffset s <? size row)); [| constructor].
  destruct (right_digit s) as [[st cs] bm] eqn:Hd.
  destruct (StatusIsError st) eqn:Hst; [constructor |].
  apply StatusIsError_false in Hst. subst st.
  constructor; [exact (HQ _ _ _ _ _ Hd) | apply IH].
Qed.

(** *** The parity mask along the first loop *)

Lemma left_half_mask_bound (n : nat) (x : Z) (s : Locals) :
  0 <= x -> 0 <= lgPatternFound s < 64 ->
  0 <= lgPatternFound (flow_locals (left_half n x s)) < 64.
Proof.
  intros Hx HP.
  apply (left_half_invariant (fun _ s' => 0 <= lgPatternFound s' < 64));
    [| exact Hx | exact HP].
  intros x' s' cs bm HI Hx' _ _. cbn [lgPatternFound left_body].
  destruct (10 <=? bm); [apply set_parity_bit_bound; assumption | exact HI].
Qed.

Lemma left_half_mask (n : nat) (x : Z) (s : Locals) (j : Z) :
  0 <= x -> 0 <= j ->
  Z.testbit (lgPatternFound (flow_locals (left_half n x s))) j
  = Z.testbit (lgPatternFound s) j || parity_bit x (left_matches n x s) (5 - j).
Proof.
  intros Hx Hj. revert x s Hx. induction n as [| n IH]; intros x s Hx.
  - cbn. now rewrite orb_false_r.
  - cbn [EAN13Reader.left_half EAN13Reader.left_matches].
    destruct ((x <? 6) && (rowOffset s <? size row)) eqn:Hc;
      [| cbn; now rewrite orb_false_r].
    apply andb_true_iff in Hc. destruct Hc as [Hx6 _]. apply Z.ltb_lt in Hx6.
    destruct (left_digit s) as [[st cs] bm].
    destruct (StatusIsError st); [cbn; now rewrite orb_false_r |].
    rewrite IH by lia. cbn [lgPatternFound left_body parity_bit].
    destruct (Z.eqb_spec (5 - j) x) as [Hjx | Hjx].
    + rewrite parity_bit_below by lia. rewrite orb_false_r.
      destruct (10 <=? bm).
      * rewrite set_parity_bit by lia.
        destruct (Z.eqb_spec (5 - j) x); [reflexivity | lia].
      * now rewrite orb_false_r.
    + destruct (10 <=? bm); [| reflexivity].
      rewrite set_parity_bit by lia.
      destruct (Z.eqb_spec (5 - j) x); [lia |]. now rewrite orb_false_r.
Qed.

End Loops.

(** ** decodeMiddle *)

Section Paths.

Variable DecodeDigit :
  BitArray -> Z -> list (list Z) -> Counters -> Z -> ErrorStatus * Counters * Z.
Variable FindGuardPattern :
  BitArray -> Z -> bool -> list Z -> ErrorStatus * Z * Z.
Variable row : BitArray.

Local Abbreviation left_half := (left_half DecodeDigit row).
Local Abbreviation right_half := (right_half DecodeDigit row).
Local Abbreviation left_matches := (left_matches DecodeDigit row).
Local Abbreviation right_matches := (right_matches DecodeDigit row).
Local Abbreviation left_exit := (left_exit DecodeDigit row).
Local Abbreviation right_entry := (right_entry DecodeDigit FindGuardPattern row).
Local Abbreviation decodeMiddle := (decodeMiddle DecodeDigit FindGuardPattern row).

(** The four ways through [decodeMiddle]: a return from the first loop, a
    mask that is no entry of the table, a middle guard that is not found,
    and the second loop, left by a return or by its condition.  Each
    comes with the cursor and the result string it leaves. *)
Lemma decodeMiddle_paths (off : Z) (res : cstring) :
  let f := left_half 6 0 (entry off res) in
  let s := flow_locals f in
  let left_chars := map left_char (left_matches 6 0 (entry off res)) in
  let o := decodeMiddle off res in
  (exists st, flow_return f = Some st /\ StatusIsError st = true
              /\ o = (st, rowOffset s, res ++ left_chars))
  \/ (flow_return f = None /\ ~ In (lgPatternFound s) FIRST_DIGIT_ENCODINGS
      /\ o = (NotFound, rowOffset s, res ++ left_chars))
  \/ (flow_return f = None
      /\ exists d, 0 <= d < 10
         /\ nth (Z.to_nat d) FIRST_DIGIT_ENCODINGS 0 = lgPatternFound s
         /\ ((exists st b e,
                FindGuardPattern row (rowOffset s) true MIDDLE_PATTERN = (st, b, e)
                /\ StatusIsError st = true
                /\ o = (st, rowOffset s,
                        to_char (zero_char + d) :: res ++ left_chars))
             \/ (exists b e,
                   FindGuardPattern row (rowOffset s) true MIDDLE_PATTERN
                   = (NoError, b, e)
                   /\ right_entry off res
                      = mkLocals e (to_char (zero_char + d) :: res ++ left_chars)
                                 (counters s) (lgPatternFound s)
                   /\ o = (match flow_return (right_half 6 0 (right_entry off res)) with
                           | Some st => st
                           | None => NoError
                           end,
                           rowOffset (flow_locals (right_half 6 0 (right_entry off res))),
                           (to_char (zero_char + d) :: res ++ left_chars)
                           ++ map right_char
                                (right_matches 6 0 (right_entry off res)))))).
Proof.
  cbv zeta.
  pose proof (proj2 (left_half_trace DecodeDigit row 6 0 (entry off res))) as Hres.
  cbn [resultString entry] in Hres.
  unfold decodeMiddle, EAN13Reader.decodeMiddle.
  unfold right_entry, EAN13Reader.right_entry, left_exit, EAN13Reader.left_exit.
  destruct (left_half 6 0 (entry off res)) as [[ret x] s] eqn:Hl.
  cbn [flow_locals flow_return fst snd] in *.
  destruct ret as [st |].
  - left. exists st. rewrite Hres. split; [reflexivity |]. split; [| reflexivity].
    (* a return from the loop carries an error status *)
    clear Hres. revert Hl. generalize (entry off res). generalize 0.
    generalize 6%nat. intros n. induction n as [| n IH]; intros x0 s0;
      [discriminate |].
    cbn [EAN13Reader.left_half].
    destruct ((x0 <? 6) && (rowOffset s0 <? size row)); [| discriminate].
    destruct (EAN13Reader.left_digit DecodeDigit row s0) as [[st' cs] bm].
    destruct (StatusIsError st') eqn:Hst; [| apply IH].
    intros H. injection H as <- _ _. exact Hst.
  - right. unfold decode_from_first_digit.
    destruct (DetermineFirstDigit_shape (resultString s) (lgPatternFound s))
      as [[HN HR] | (d & Hd & Hn & HR)]; rewrite HR; cbn [StatusIsError].
    + left. rewrite Hres. auto.
    + right. split; [reflexivity |]. exists d. split; [exact Hd |].
      split; [exact Hn |].
      unfold decode_from_guard. cbn [rowOffset resultString counters lgPatternFound snd].
      destruct (FindGuardPattern row (rowOffset s) true MIDDLE_PATTERN)
        as [[st b] e] eqn:Hg.
      destruct (StatusIsError st) eqn:Hst.
      * left. exists st, b, e. rewrite Hres. auto.
      * right. apply StatusIsError_false in Hst. subst st. exists b, e.
        split; [reflexivity |]. cbn [snd]. rewrite Hres.
        split; [reflexivity |].
        unfold decode_right.
        set (s1 := {| rowOffset := e;
                      resultString := to_char (zero_char + d)
                                      :: res ++ map left_char (left_matches 6 0 (entry off res));
                      counters := counters s;
                      lgPatternFound := lgPatternFound s |}).
        pose proof (proj2 (right_half_trace DecodeDigit row 6 0 s1)) as Hr.
        destruct (right_half 6 0 s1) as [[ret' x'] s'].
        cbn [flow_locals flow_return fst snd] in *.
        rewrite Hr. destruct ret'; reflexivity.
Qed.

End Paths.

(** ** The reference collaborators keep the contracts *)

Lemma ideal_run_length_le (colour : bool) (bits : list bool) :
  (Ideal.run_length colour bits <= length bits)%nat.
Proof.
  induction bits as [| b bits IH]; cbn; [lia |].
  destruct (Bool.eqb b colour); lia.
Qed.

Lemma ideal_record_pattern_runs (bits : list bool) (cs : Counters) :
  Ideal.record_pattern bits = Some cs ->
  0 <= c0 cs /\ 0 <= c1 cs /\ 0 <= c2 cs /\ 0 <= c3 cs
  /\ counters_sum cs <= Z.of_nat (length bits).
Proof.
  unfold Ideal.record_pattern. destruct bits as [| b bits']; [discriminate |].
  set (bits := b :: bits').
  set (r0 := Ideal.run_length b bits).
  set (bits1 := skipn r0 bits).
  set (r1 := Ideal.run_length (negb b) bits1).
  set (bits2 := skipn r1 bits1).
  set (r2 := Ideal.run_length b bits2).
  set (bits3 := skipn r2 bits2).
  set (r3 := Ideal.run_length (negb b) bits3).
  destruct (r3 =? 0)%nat; [discriminate |].
  intros H. injection H as <-. unfold counters_sum. cbn [c0 c1 c2 c3].
  pose proof (ideal_run_length_le b bits) as H0. fold r0 in H0.
  pose proof (ideal_run_length_le (negb b) bits1) as H1. fold r1 in H1.
  pose proof (ideal_run_length_le b bits2) as H2. fold r2 in H2.
  pose proof (ideal_run_length_le (negb b) bits3) as H3. fold r3 in H3.
  assert (L1 : length bits1 = (length bits - r0)%nat) by apply length_skipn.
  assert (L2 : length bits2 = (length bits1 - r1)%nat) by apply length_skipn.
  assert (L3 : length bits3 = (length bits2 - r2)%nat) by apply length_skipn.
  lia.
Qed.

Lemma ideal_find_pattern_index (widths : list Z) (patterns : list (list Z))
    (i k : Z) :
  Ideal.find_pattern widths patterns i = Some k ->
  i <= k < i + Z.of_nat (length patterns).
Proof.
  revert i. induction patterns as [| p ps IH]; intros i; [discriminate |].
  cbn [Ideal.find_pattern length].
  destruct (Ideal.widths_eqb widths p).
  - intros H. injection H as <-. lia.
  - intros H. apply IH in H. lia.
Qed.

Lemma ideal_DecodeDigit_success (row : BitArray) (off : Z)
    (patterns : list (list Z)) (cs0 : Counters) (bm0 : Z) (cs : Counters) (bm : Z) :
  Ideal.DecodeDigit row off patterns cs0 bm0 = (NoError, cs, bm) ->
  0 <= off < size row
  /\ Ideal.record_pattern (skipn (Z.to_nat off) row) = Some cs
  /\ Ideal.find_pattern (counters_list cs) patterns 0 = Some bm.
Proof.
  unfold Ideal.DecodeDigit.
  destruct (Z.ltb_spec off 0) as [Hlo | Hlo]; cbn [orb]; [discriminate |].
  destruct (Z.leb_spec (size row) off) as [Hhi | Hhi]; [discriminate |].
  destruct (Ideal.record_pattern (skipn (Z.to_nat off) row)) as [cs' |] eqn:Hrec;
    [| discriminate].
  destruct (Ideal.find_pattern (counters_list cs') patterns 0) as [i |] eqn:Hfind;
    [| discriminate].
  intros Heq. injection Heq as <- <-. split; [lia | split; [reflexivity | exact Hfind]].
Qed.

Lemma ideal_DecodeDigit_index (row : BitArray) (patterns : list (list Z)) :
  matcher_index_contract Ideal.DecodeDigit row patterns.
Proof.
  intros off cs0 bm0 cs bm H.
  apply ideal_DecodeDigit_success in H. destruct H as (_ & _ & H).
  apply ideal_find_pattern_index in H. lia.
Qed.

Lemma ideal_DecodeDigit_runs (row : BitArray) (patterns : list (list Z)) :
  matcher_runs_contract Ideal.DecodeDigit row patterns.
Proof.
  intros off cs0 bm0 cs bm H.
  apply ideal_DecodeDigit_success in H. destruct H as (Hoff & H & _).
  apply ideal_record_pattern_runs in H. rewrite length_skipn in H.
  unfold size in *. lia.
Qed.

Lemma ideal_starts_with_runs_sum (pattern : list Z) :
  forall (colour : bool) (bits : list bool),
    Ideal.starts_with_runs colour pattern bits = true ->
    0 <= fold_right Z.add 0 pattern <= Z.of_nat (length bits)
    /\ (pattern <> [] -> 0 < fold_right Z.add 0 pattern).
Proof.
  induction pattern as [| w ws IH]; intros colour bits H.
  - cbn. split; [lia | congruence].
  - cbn [Ideal.starts_with_runs] in H.
    apply andb_true_iff in H. destruct H as [H Hrest].
    apply andb_true_iff in H. destruct H as [Hw Hr].
    apply Z.ltb_lt in Hw. apply Z.eqb_eq in Hr.
    apply IH in Hrest. destruct Hrest as [Hsum _].
    rewrite length_skipn in Hsum.
    pose proof (ideal_run_length_le colour bits).
    cbn [fold_right]. split; [lia |]. intros _. lia.
Qed.

Lemma ideal_find_guard_span (colour : bool) (pattern : list Z) :
  pattern <> [] ->
  forall (fuel : nat) (bits : list bool) (p b e : Z),
    Ideal.find_guard fuel bits p colour pattern = (NoError, b, e) ->
    p <= b /\ b < e /\ e <= p + Z.of_nat (length bits).
Proof.
  intros Hpat. induction fuel as [| fuel IH]; intros bits p b e; [discriminate |].
  cbn [Ideal.find_guard].
  pose proof (ideal_run_length_le (negb colour) bits) as Hskip.
  pose proof (length_skipn (Ideal.run_length (negb colour) bits) bits) as Hlen.
  destruct (skipn (Ideal.run_length (negb colour) bits) bits) as [| b0 rest] eqn:Hbits;
    [discriminate |].
  destruct (Ideal.starts_with_runs colour pattern (b0 :: rest)) eqn:Hruns.
  - intros H. injection H as <- <-.
    apply ideal_starts_with_runs_sum in Hruns. destruct Hruns as [Hsum Hpos].
    specialize (Hpos Hpat). lia.
  - intros H. apply IH in H.
    pose proof (ideal_run_length_le colour (b0 :: rest)) as Hr.
    rewrite length_skipn in H. lia.
Qed.

Lemma ideal_FindGuardPattern_span (row : BitArray) :
  guard_contract Ideal.FindGuardPattern row.
Proof.
  intros off b e. unfold Ideal.FindGuardPattern.
  destruct (Z.ltb_spec off 0) as [Hlo | Hlo]; [discriminate |].
  intros H. apply ideal_find_guard_span in H; [| discriminate].
  rewrite length_skipn in H. unfold size. lia.
Qed.

(** ** The cursor *)

Lemma advance_exact (off : Z) (cs : Counters) :
  INT_MIN <= off ->
  0 <= c0 cs -> 0 <= c1 cs -> 0 <= c2 cs -> 0 <= c3 cs ->
  off + counters_sum cs <= INT_MAX ->
  advance off cs = off + counters_sum cs.
Proof.
  unfold advance, counters_list, counters_sum. cbn [fold_left].
  intros Hlo H0 H1 H2 H3 Hhi.
  rewrite (int_add_exact off (c0 cs)) by lia.
  rewrite (int_add_exact (off + c0 cs) (c1 cs)) by lia.
  rewrite (int_add_exact (off + c0 cs + c1 cs) (c2 cs)) by lia.
  rewrite (int_add_exact (off + c0 cs + c1 cs + c2 cs) (c3 cs)) by lia.
  lia.
Qed.

Section Cursor.

Variable DecodeDigit :
  BitArray -> Z -> list (list Z) -> Counters -> Z -> ErrorStatus * Counters * Z.
Variable row : BitArray.

Hypothesis row_fits : size row <= INT_MAX.

Local Abbreviation left_half := (left_half DecodeDigit row).
Local Abbreviation right_half := (right_half DecodeDigit row).

(** One successful round moves the cursor by the sum of the counters, and
    not past the end of the row. *)
Lemma left_round_cursor (x : Z) (s : Locals) (cs : Counters) (bm : Z) :
  matcher_runs_contract DecodeDigit row L_AND_G_PATTERNS ->
  INT_MIN <= rowOffset s ->
  left_digit DecodeDigit row s = (NoError, cs, bm) ->
  rowOffset (left_body x s cs bm) = rowOffset s + counters_sum cs
  /\ rowOffset s <= rowOffset (left_body x s cs bm) <= size row.
Proof.
  intros HC Hlo Hd. apply HC in Hd. destruct Hd as (H0 & H1 & H2 & H3 & Hsum).
  cbn [rowOffset left_body]. rewrite advance_exact by lia.
  unfold counters_sum in *. lia.
Qed.

Lemma right_round_cursor (s : Locals) (cs : Counters) (bm : Z) :
  matcher_runs_contract DecodeDigit row L_PATTERNS ->
  INT_MIN <= rowOffset s ->
  right_digit DecodeDigit row s = (NoError, cs, bm) ->
  rowOffset (right_body s cs bm) = rowOffset s + counters_sum cs
  /\ rowOffset s <= rowOffset (right_body s cs bm) <= size row.
Proof.
  intros HC Hlo Hd. apply HC in Hd. destruct Hd as (H0 & H1 & H2 & H3 & Hsum).
  cbn [rowOffset right_body]. rewrite advance_exact by lia.
  unfold counters_sum in *. lia.
Qed.

(** Along a loop the cursor does not go back, and it does not pass the
    end of the row unless it was there when the loop was entered. *)
Lemma left_half_cursor (n : nat) (x : Z) (s : Locals) :
  matcher_runs_contract DecodeDigit row L_AND_G_PATTERNS ->
  0 <= x -> INT_MIN <= rowOffset s ->
  rowOffset s <= rowOffset (flow_locals (left_half n x s))
                <= Z.max (rowOffset s) (size row).
Proof.
  intros HC Hx Hlo.
  apply (left_half_invariant DecodeDigit row
           (fun _ s' => rowOffset s <= rowOffset s' <= Z.max (rowOffset s) (size row)));
    [| exact Hx | lia].
  intros x' s' cs bm HI Hx' Hoff Hd.
  destruct (left_round_cursor x' s' cs bm HC ltac:(lia) Hd) as [_ Hb]. lia.
Qed.

Lemma right_half_cursor (n : nat) (x : Z) (s : Locals) :
  matcher_runs_contract DecodeDigit row L_PATTERNS ->
  0 <= x -> INT_MIN <= rowOffset s ->
  rowOffset s <= rowOffset (flow_locals (right_half n x s))
                <= Z.max (rowOffset s) (size row).
Proof.
  intros HC Hx Hlo.
  apply (right_half_invariant DecodeDigit row
           (fun _ s' => rowOffset s <= rowOffset s' <= Z.max (rowOffset s) (size row)));
    [| exact Hx | lia].
  intros x' s' cs bm HI Hx' Hoff Hd.
  destruct (right_round_cursor s' cs bm HC ltac:(lia) Hd) as [_ Hb]. lia.
Qed.

(** One more round of a loop does not move the cursor back. *)
Lemma left_half_cursor_mono (n : nat) (s : Locals) :
  matcher_runs_contract DecodeDigit row L_AND_G_PATTERNS ->
  INT_MIN <= rowOffset s ->
  rowOffset (flow_locals (left_half n 0 s))
  <= rowOffset (flow_locals (left_half (S n) 0 s)).
Proof.
  intros HC Hlo. rewrite left_half_snoc.
  pose proof (left_half_cursor n 0 s HC ltac:(lia) Hlo) as Hn.
  pose proof (left_half_x_bounds DecodeDigit row n 0 s ltac:(lia)) as Hx.
  destruct (left_half n 0 s) as [[ret x'] s']. cbn [flow_locals flow_x fst snd] in *.
  destruct ret; [cbn; lia |].
  apply (left_half_cursor 1 x' s' HC); lia.
Qed.

Lemma right_half_cursor_mono (n : nat) (s : Locals) :
  matcher_runs_contract DecodeDigit row L_PATTERNS ->
  INT_MIN <= rowOffset s ->
  rowOffset (flow_locals (right_half n 0 s))
  <= rowOffset (flow_locals (right_half (S n) 0 s)).
Proof.
  intros HC Hlo. rewrite right_half_snoc.
  pose proof (right_half_cursor n 0 s HC ltac:(lia) Hlo) as Hn.
  pose proof (right_half_x_bounds DecodeDigit row n 0 s ltac:(lia)) as Hx.
  destruct (right_half n 0 s) as [[ret x'] s']. cbn [flow_locals flow_x fst snd] in *.
  destruct ret; [cbn; lia |].
  apply (right_half_cursor 1 x' s' HC); lia.
Qed.

End Cursor.

(** ** The statements of the specification *)

Lemma left_char_digit (bm : Z) : 0 <= bm -> is_digit (left_char bm) = true.
Proof.
  intros H. unfold left_char. rewrite int_rem_nonneg by exact H.
  apply to_char_digit. apply Z.mod_pos_bound. lia.
Qed.

Lemma right_char_digit (bm : Z) : 0 <= bm < 10 -> is_digit (right_char bm) = true.
Proof.
  intros H. unfold right_char. rewrite int_add_exact.
  - apply to_char_digit. exact H.
  - unfold zero_char, INT_MIN, INT_MAX. lia.
Qed.

Section Statements.

Variable DecodeDigit :
  BitArray -> Z -> list (list Z) -> Counters -> Z -> ErrorStatus * Counters * Z.
Variable FindGuardPattern :
  BitArray -> Z -> bool -> list Z -> ErrorStatus * Z * Z.
Variable row : BitArray.

Local Abbreviation left_half := (left_half DecodeDigit row).
Local Abbreviation right_half := (right_half DecodeDigit row).
Local Abbreviation left_matches := (left_matches DecodeDigit row).
Local Abbreviation right_matches := (right_matches DecodeDigit row).
Local Abbreviation left_exit := (left_exit DecodeDigit row).
Local Abbreviation right_entry := (right_entry DecodeDigit FindGuardPattern row).
Local Abbreviation decodeMiddle := (decodeMiddle DecodeDigit FindGuardPattern row).
Local Abbreviation cursor_history :=
  (cursor_history DecodeDigit FindGuardPattern row).

(** A [return] inside the second loop carries an error status. *)
Lemma right_half_return_error (n : nat) (x : Z) (s : Locals) (st : ErrorStatus) :
  flow_return (right_half n x s) = Some st -> StatusIsError st = true.
Proof.
  revert x s. induction n as [| n IH]; intros x s; [discriminate |].
  cbn [EAN13Reader.right_half].
  destruct ((x <? 6) && (rowOffset s <? size row)); [| discriminate].
  destruct (right_digit DecodeDigit row s) as [[st' cs] bm].
  destruct (StatusIsError st') eqn:Hst; [| apply IH].
  cbn. intros H. injection H as <-. exact Hst.
Qed.

(** C5: after any number of rounds of the first loop, and so at every
    point of decodeMiddle, the parity mask is below 64 and, for every x in
    0..5, its bit 5 - x is set exactly when the x-th left-half digit has
    been decoded with a best match of 10 or more. *)
Theorem parity_mask_invariant (n : nat) (off : Z) (res : cstring) :
  let f := left_half n 0 (entry off res) in
  let ms := left_matches n 0 (entry off res) in
  let P := lgPatternFound (flow_locals f) in
  flow_x f = Z.of_nat (length ms)
  /\ 0 <= P < 64
  /\ forall y, 0 <= y < 6 ->
       (Z.testbit P (5 - y) = true
        <-> exists bm, nth_error ms (Z.to_nat y) = Some bm /\ 10 <= bm).
Proof.
  cbv zeta. split; [| split].
  - rewrite (proj1 (left_half_trace DecodeDigit row n 0 (entry off res))). lia.
  - apply left_half_mask_bound; cbn; lia.
  - intros y Hy. rewrite left_half_mask by lia.
    cbn [lgPatternFound entry]. rewrite Z.testbit_0_l, orb_false_l.
    replace (5 - (5 - y)) with y by lia.
    rewrite parity_bit_nth by lia. now replace (y - 0) with y by lia.
Qed.

(** C10: entered with the cursor at or past the end of the row,
    decodeMiddle runs no round of its first loop and reports no error
    there; the mask is 0x00, the entry of the digit 0, so the resolver
    answers success and the character '0' stands at position 0 of the
    result string; and the decoding goes on with the search for the
    middle guard at the unchanged cursor: an error of the guard finder is
    what decodeMiddle returns, with the cursor unchanged and the '0' left
    in the string, and when the guard finder answers a span the second
    loop is run from the end of that span on the string with the '0' in
    front. *)
Theorem decodeMiddle_at_end (off : Z) (res : cstring) :
  size row <= off ->
  left_half 6 0 (entry off res) = (None, 0, entry off res)
  /\ lgPatternFound (left_exit off res) = 0
  /\ nth 0 FIRST_DIGIT_ENCODINGS 0 = 0
  /\ DetermineFirstDigit res 0 = (NoError, "0"%char :: res)
  /\ (forall st b e,
        FindGuardPattern row off true MIDDLE_PATTERN = (st, b, e) ->
        (StatusIsError st = true ->
         decodeMiddle off res = (st, off, "0"%char :: res))
        /\ (StatusIsError st = false ->
            decodeMiddle off res
            = (match flow_return
                       (right_half 6 0 (mkLocals e ("0"%char :: res) no_counters 0))
               with
               | Some st' => st'
               | None => NoError
               end,
               rowOffset (flow_locals
                            (right_half 6 0
                               (mkLocals e ("0"%char :: res) no_counters 0))),
               ("0"%char :: res)
               ++ map right_char
                    (right_matches 6 0
                       (mkLocals e ("0"%char :: res) no_counters 0))))).
Proof.
  intros Hend.
  assert (Hl : left_half 6 0 (entry off res) = (None, 0, entry off res)).
  { cbn [EAN13Reader.left_half entry rowOffset].
    destruct (Z.ltb_spec off (size row)); [lia | reflexivity]. }
  assert (Hd : DetermineFirstDigit res 0 = (NoError, "0"%char :: res))
    by reflexivity.
  split; [exact Hl |].
  split; [unfold left_exit, EAN13Reader.left_exit; rewrite Hl; reflexivity |].
  split; [reflexivity |]. split; [exact Hd |].
  intros st b e Hg.
  unfold decodeMiddle, EAN13Reader.decodeMiddle. rewrite Hl.
  unfold decode_from_first_digit.
  cbn [resultString lgPatternFound rowOffset counters entry].
  rewrite Hd. cbn [StatusIsError]. unfold decode_from_guard.
  cbn [resultString lgPatternFound rowOffset counters].
  rewrite Hg. split; intros Hst; rewrite Hst; [reflexivity |].
  unfold decode_right.
  pose proof (proj2 (right_half_trace DecodeDigit row 6 0
                       (mkLocals e ("0"%char :: res) no_counters 0))) as Hr.
  cbn [resultString] in Hr.
  destruct (right_half 6 0 (mkLocals e ("0"%char :: res) no_counters 0))
    as [[ret x'] s'].
  cbn [flow_locals flow_return fst snd] in *. rewrite Hr.
  destruct ret; reflexivity.
Qed.

(** C9: however decodeMiddle returns, the result string it leaves is the
    one it was given with at most one character put in front and at most
    twelve characters appended; nothing of the given string is removed or
    overwritten.  The character put in front is a digit, and so are the
    appended ones when the matcher answers with indices into its table. *)
Theorem decodeMiddle_frame (off : Z) (res : cstring) :
  exists lead tail,
    out_result (decodeMiddle off res) = lead ++ res ++ tail
    /\ (length lead <= 1)%nat
    /\ (length tail <= 12)%nat
    /\ Forall (fun c => is_digit c = true) lead
    /\ (matcher_index_contract DecodeDigit row L_AND_G_PATTERNS ->
        matcher_index_contract DecodeDigit row L_PATTERNS ->
        Forall (fun c => is_digit c = true) tail).
Proof.
  pose proof (left_half_trace DecodeDigit row 6 0 (entry off res)) as [HxL _].
  pose proof (left_half_x_bounds DecodeDigit row 6 0 (entry off res) ltac:(lia)) as HbL.
  assert (HlenL : (length (map left_char (left_matches 6 0 (entry off res))) <= 6)%nat)
    by (rewrite length_map; lia).
  assert (HdigL : matcher_index_contract DecodeDigit row L_AND_G_PATTERNS ->
                  Forall (fun c => is_digit c = true)
                    (map left_char (left_matches 6 0 (entry off res)))).
  { intros HC. apply Forall_map.
    apply (left_matches_Forall DecodeDigit row (fun bm => is_digit (left_char bm) = true)).
    intros o cs0 bm0 cs bm H. apply left_char_digit. apply HC in H. lia. }
  destruct (decodeMiddle_paths DecodeDigit FindGuardPattern row off res)
    as [(st & _ & _ & Ho) | [(_ & _ & Ho) | (_ & d & Hd & _ & [(st & b & e & _ & _ & Ho)
                                                             | (b & e & _ & _ & Ho)])]];
    rewrite Ho; cbn [out_result snd].
  - exists [], (map left_char (left_matches 6 0 (entry off res))).
    repeat split; [cbn; lia | lia | constructor | auto].
  - exists [], (map left_char (left_matches 6 0 (entry off res))).
    repeat split; [cbn; lia | lia | constructor | auto].
  - exists [to_char (zero_char + d)], (map left_char (left_matches 6 0 (entry off res))).
    repeat split; [cbn; lia | lia | | auto].
    constructor; [apply to_char_digit; exact Hd | constructor].
  - pose proof (right_half_trace DecodeDigit row 6 0 (right_entry off res)) as [HxR _].
    pose proof (right_half_x_bounds DecodeDigit row 6 0 (right_entry off res) ltac:(lia))
      as HbR.
    exists [to_char (zero_char + d)],
      (map left_char (left_matches 6 0 (entry off res))
       ++ map right_char (right_matches 6 0 (right_entry off res))).
    split; [cbn [app]; now rewrite <- app_assoc |].
    split; [cbn; lia |].
    split; [rewrite length_app, !length_map in *; lia |].
    split; [constructor; [apply to_char_digit; exact Hd | constructor] |].
    intros HCL HCR. apply Forall_app. split; [auto |].
    apply Forall_map.
    apply (right_matches_Forall DecodeDigit row (fun bm => is_digit (right_char bm) = true)).
    intros o cs0 bm0 cs bm H. apply right_char_digit. apply HCR in H. cbn in H. lia.
Qed.

(** What a successful run went through: both loops were left by their
    condition, the first one after its six rounds. *)
Lemma decodeMiddle_success (off : Z) (res : cstring) :
  guard_contract FindGuardPattern row ->
  out_status (decodeMiddle off res) = NoError ->
  flow_return (left_half 6 0 (entry off res)) = None
  /\ flow_x (left_half 6 0 (entry off res)) = 6
  /\ flow_return (right_half 6 0 (right_entry off res)) = None
  /\ rowOffset (left_exit off res) < rowOffset (right_entry off res) <= size row
  /\ exists d, 0 <= d < 10
     /\ decodeMiddle off res
        = (NoError,
           rowOffset (flow_locals (right_half 6 0 (right_entry off res))),
           (to_char (zero_char + d)
              :: res ++ map left_char (left_matches 6 0 (entry off res)))
           ++ map right_char (right_matches 6 0 (right_entry off res))).
Proof.
  intros HG Hok.
  destruct (decodeMiddle_paths DecodeDigit FindGuardPattern row off res)
    as [(st & _ & Hst & Ho) | [(_ & _ & Ho) | (Hf & d & Hd & _ & [(st & b & e & _ & Hst & Ho)
                                                                 | (b & e & Hg & He & Ho)])]];
    rewrite Ho in Hok; cbn [out_status fst] in Hok.
  - subst st. discriminate.
  - discriminate.
  - subst st. discriminate.
  - assert (Hr : flow_return (right_half 6 0 (right_entry off res)) = None).
    { destruct (flow_return (right_half 6 0 (right_entry off res))) as [st |] eqn:Hr;
        [| reflexivity].
      apply right_half_return_error in Hr. subst st. discriminate. }
    rewrite Hr in Ho. apply HG in Hg.
    assert (Hoff : rowOffset (left_exit off res) < rowOffset (right_entry off res) <= size row).
    { rewrite He. cbn [rowOffset]. unfold left_exit, EAN13Reader.left_exit. lia. }
    split; [exact Hf |]. split.
    + destruct (left_half_exit DecodeDigit row 6 0 (entry off res)
                  ltac:(lia) ltac:(cbn; lia) Hf) as [H6 | [_ Hend]]; [exact H6 |].
      unfold left_exit, EAN13Reader.left_exit in Hoff. lia.
    + split; [exact Hr |]. split; [exact Hoff |].
      exists d. split; [exact Hd | exact Ho].
Qed.

Lemma left_chars_digits (n : nat) (x : Z) (s : Locals) :
  matcher_index_contract DecodeDigit row L_AND_G_PATTERNS ->
  Forall (fun c => is_digit c = true) (map left_char (left_matches n x s)).
Proof.
  intros HC. apply Forall_map.
  apply (left_matches_Forall DecodeDigit row (fun bm => is_digit (left_char bm) = true)).
  intros o cs0 bm0 cs bm H. apply left_char_digit. apply HC in H. lia.
Qed.

Lemma right_chars_digits (n : nat) (x : Z) (s : Locals) :
  matcher_index_contract DecodeDigit row L_PATTERNS ->
  Forall (fun c => is_digit c = true) (map right_char (right_matches n x s)).
Proof.
  intros HC. apply Forall_map.
  apply (right_matches_Forall DecodeDigit row (fun bm => is_digit (right_char bm) = true)).
  intros o cs0 bm0 cs bm H. apply right_char_digit. apply HC in H. cbn in H. lia.
Qed.

(** Under the contract of the matcher the characters of the loops are
    the ones the specification names. *)
Lemma left_chars_mod (n : nat) (x : Z) (s : Locals) :
  matcher_index_contract DecodeDigit row L_AND_G_PATTERNS ->
  map left_char (left_matches n x s)
  = map (fun bm => to_char (zero_char + bm mod 10)) (left_matches n x s).
Proof.
  intros HC. apply map_ext_in. intros bm Hin.
  assert (HF : Forall (fun bm => 0 <= bm) (left_matches n x s)).
  { apply (left_matches_Forall DecodeDigit row).
    intros o cs0 bm0 cs bm' H. apply HC in H. lia. }
  rewrite Forall_forall in HF. unfold left_char.
  rewrite int_rem_nonneg by (apply HF; exact Hin). reflexivity.
Qed.

Lemma right_chars_plain (n : nat) (x : Z) (s : Locals) :
  matcher_index_contract DecodeDigit row L_PATTERNS ->
  map right_char (right_matches n x s)
  = map (fun bm => to_char (zero_char + bm)) (right_matches n x s).
Proof.
  intros HC. apply map_ext_in. intros bm Hin.
  assert (HF : Forall (fun bm => 0 <= bm < 10) (right_matches n x s)).
  { apply (right_matches_Forall DecodeDigit row).
    intros o cs0 bm0 cs bm' H. apply HC in H. cbn in H. lia. }
  rewrite Forall_forall in HF. specialize (HF bm Hin). unfold right_char.
  rewrite int_add_exact; [reflexivity |].
  unfold zero_char, INT_MIN, INT_MAX. lia.
Qed.

(** C1 (amended): a successful decodeMiddle on an empty result string
    leaves only decimal digits in it, 7 + k of them where k <= 6 is the
    number of rounds of the second loop: thirteen when that loop ran its
    six rounds, fewer when it was left because the cursor had reached the
    end of the row. *)
Theorem decodeMiddle_success_result (off : Z) :
  matcher_index_contract DecodeDigit row L_AND_G_PATTERNS ->
  matcher_index_contract DecodeDigit row L_PATTERNS ->
  guard_contract FindGuardPattern row ->
  out_status (decodeMiddle off []) = NoError ->
  let k := flow_x (right_half 6 0 (right_entry off [])) in
  Forall (fun c => is_digit c = true) (out_result (decodeMiddle off []))
  /\ 0 <= k <= 6
  /\ Z.of_nat (length (out_result (decodeMiddle off []))) = 7 + k
  /\ (k = 6 \/ size row <= out_rowOffset (decodeMiddle off [])).
Proof.
  intros HCL HCR HG Hok. cbv zeta.
  destruct (decodeMiddle_success off [] HG Hok) as (Hf & H6 & Hr & _ & d & Hd & Ho).
  pose proof (left_half_trace DecodeDigit row 6 0 (entry off [])) as [HxL _].
  pose proof (right_half_trace DecodeDigit row 6 0 (right_entry off [])) as [HxR _].
  pose proof (right_half_x_bounds DecodeDigit row 6 0 (right_entry off []) ltac:(lia))
    as HbR.
  rewrite Ho. cbn [out_result out_rowOffset fst snd app].
  split; [| split; [lia | split]].
  - constructor; [apply to_char_digit; exact Hd |].
    apply Forall_app. split; [apply left_chars_digits | apply right_chars_digits]; assumption.
  - cbn [length]. rewrite length_app, !length_map. lia.
  - destruct (right_half_exit DecodeDigit row 6 0 (right_entry off [])
                ltac:(lia) ltac:(cbn; lia) Hr) as [Hk | [_ Hend]];
      [left; exact Hk | right; exact Hend].
Qed.

(** C2 (amended): when the first loop is left before its sixth round
    because the cursor reached the end of the row, decodeMiddle answers
    NotFound (the mask is no entry of the table, or the guard finder,
    which returns only spans inside the row, fails).  When the second
    loop is left so, decodeMiddle answers success, with fewer than
    thirteen characters appended to the result. *)
Theorem decodeMiddle_early_exit (off : Z) (res : cstring) :
  guard_contract FindGuardPattern row ->
  (flow_return (left_half 6 0 (entry off res)) = None ->
   flow_x (left_half 6 0 (entry off res)) < 6 ->
   size row <= rowOffset (left_exit off res)
   /\ out_status (decodeMiddle off res) = NotFound)
  /\ (flow_return (left_half 6 0 (entry off res)) = None ->
      fst (DetermineFirstDigit (resultString (left_exit off res))
             (lgPatternFound (left_exit off res))) = NoError ->
      fst (fst (FindGuardPattern row (rowOffset (left_exit off res)) true
                  MIDDLE_PATTERN)) = NoError ->
      flow_return (right_half 6 0 (right_entry off res)) = None ->
      flow_x (right_half 6 0 (right_entry off res)) < 6 ->
      size row <= out_rowOffset (decodeMiddle off res)
      /\ out_status (decodeMiddle off res) = NoError
      /\ Z.of_nat (length (out_result (decodeMiddle off res)))
         = Z.of_nat (length res) + 7 + flow_x (right_half 6 0 (right_entry off res))).
Proof.
  intros HG. split.
  - intros Hf Hx.
    destruct (left_half_exit DecodeDigit row 6 0 (entry off res)
                ltac:(lia) ltac:(cbn; lia) Hf) as [H6 | [_ Hend]]; [lia |].
    split; [exact Hend |].
    destruct (out_status (decodeMiddle off res)) eqn:Hok; [| reflexivity].
    destruct (decodeMiddle_success off res HG Hok) as (_ & H6 & _). lia.
  - intros Hf Hd Hg Hr Hx.
    assert (Hok : out_status (decodeMiddle off res) = NoError).
    { destruct (decodeMiddle_paths DecodeDigit FindGuardPattern row off res)
        as [(st & Hf' & _) | [(_ & HN & _) | (_ & d & _ & _ & [(st & b & e & Hg' & Hst & _)
                                                             | (b & e & _ & _ & Ho)])]].
      - congruence.
      - exfalso.
        destruct (DetermineFirstDigit_shape (resultString (left_exit off res))
                    (lgPatternFound (left_exit off res))) as [[_ HR] | (d & Hd' & Hn & _)].
        + rewrite HR in Hd. discriminate.
        + apply HN. unfold left_exit, EAN13Reader.left_exit in Hn. rewrite <- Hn.
          apply nth_In. cbn. lia.
      - exfalso. unfold left_exit, EAN13Reader.left_exit in Hg. rewrite Hg' in Hg.
        cbn in Hg. subst st. discriminate.
      - rewrite Ho, Hr. reflexivity. }
    destruct (decodeMiddle_success off res HG Hok) as (_ & H6 & _ & _ & d & Hd' & Ho).
    pose proof (left_half_trace DecodeDigit row 6 0 (entry off res)) as [HxL _].
    pose proof (right_half_trace DecodeDigit row 6 0 (right_entry off res)) as [HxR _].
    rewrite Ho. cbn [out_result out_rowOffset out_status fst snd app].
    split; [| split; [reflexivity |]].
    + destruct (right_half_exit DecodeDigit row 6 0 (right_entry off res)
                  ltac:(lia) ltac:(cbn; lia) Hr) as [Hk | [_ Hend]]; [lia | exact Hend].
    + cbn [length]. rewrite !length_app, !length_map. lia.
Qed.


End Statements.

(** ** The decoder on concrete scanlines *)

(** The scanline of 5 901234 123457 decodes to its thirteen digits, with
    the cursor on the right guard. *)
Example decode_5901234123457 :
  Ideal.decode Ideal.row_5901234123457 3 []
  = (NoError, 92, list_ascii_of_string "5901234123457").
Proof. vm_compute. reflexivity. Qed.

Example decode_9780201379624 :
  Ideal.decode Ideal.row_9780201379624 3 []
  = (NoError, 92, list_ascii_of_string "9780201379624").
Proof. vm_compute. reflexivity. Qed.

Example decode_zeros :
  Ideal.decode Ideal.row_zeros 3 []
  = (NoError, 92, list_ascii_of_string "0000000000000").
Proof. vm_compute. reflexivity. Qed.

(** The mask 0x07 encodes no first digit. *)
Example decode_mask_07 :
  out_status (Ideal.decode Ideal.row_mask_07 3 []) = NotFound.
Proof. vm_compute. reflexivity. Qed.

(** A row cut inside its left half is not decoded. *)
Example decode_cut_left :
  out_status (Ideal.decode Ideal.row_cut_left 3 []) = NotFound.
Proof. vm_compute. reflexivity. Qed.

(** C1, counterexample: on the row of 5 901234 123457 cut at the end of
    its third right-half symbol, decodeMiddle started on the empty string
    answers success and leaves ten characters, not thirteen. *)
Lemma decodeMiddle_success_with_ten_characters :
  Ideal.decode Ideal.row_cut_right 3 []
  = (NoError, 71, list_ascii_of_string "5901234123")
  /\ out_status (Ideal.decode Ideal.row_cut_right 3 []) = NoError
  /\ length (out_result (Ideal.decode Ideal.row_cut_right 3 [])) <> 13%nat.
Proof.
  split; [vm_compute; reflexivity |].
  split; [vm_compute; reflexivity |].
  vm_compute. discriminate.
Qed.

(** C1, witness: the three contracts hold of the reference collaborators,
    and the row of 5 901234 123457 decodes with success. *)
Lemma decodeMiddle_success_result_witness :
  Forall (fun c => is_digit c = true)
    (out_result (Ideal.decode Ideal.row_5901234123457 3 []))
  /\ 0 <= flow_x (right_half Ideal.DecodeDigit Ideal.row_5901234123457 6 0
                    (right_entry Ideal.DecodeDigit Ideal.FindGuardPattern
                       Ideal.row_5901234123457 3 [])) <= 6
  /\ Z.of_nat (length (out_result (Ideal.decode Ideal.row_5901234123457 3 [])))
     = 7 + flow_x (right_half Ideal.DecodeDigit Ideal.row_5901234123457 6 0
                     (right_entry Ideal.DecodeDigit Ideal.FindGuardPattern
                        Ideal.row_5901234123457 3 []))
  /\ (flow_x (right_half Ideal.DecodeDigit Ideal.row_5901234123457 6 0
                (right_entry Ideal.DecodeDigit Ideal.FindGuardPattern
                   Ideal.row_5901234123457 3 [])) = 6
      \/ size Ideal.row_5901234123457
         <= out_rowOffset (Ideal.decode Ideal.row_5901234123457 3 [])).
Proof.
  apply (decodeMiddle_success_result Ideal.DecodeDigit Ideal.FindGuardPattern
           Ideal.row_5901234123457 3).
  - apply ideal_DecodeDigit_index.
  - apply ideal_DecodeDigit_index.
  - apply ideal_FindGuardPattern_span.
  - vm_compute. reflexivity.
Defined.

(** C2, counterexample: on the same cut row the second loop is left after
    three rounds, by its condition, with the cursor at the end of the
    row, and decodeMiddle answers success. *)
Lemma right_half_cut_short_succeeds :
  flow_return (right_half Ideal.DecodeDigit Ideal.row_cut_right 6 0
                 (right_entry Ideal.DecodeDigit Ideal.FindGuardPattern
                    Ideal.row_cut_right 3 [])) = None
  /\ flow_x (right_half Ideal.DecodeDigit Ideal.row_cut_right 6 0
               (right_entry Ideal.DecodeDigit Ideal.FindGuardPattern
                  Ideal.row_cut_right 3 [])) = 3
  /\ rowOffset (flow_locals
                  (right_half Ideal.DecodeDigit Ideal.row_cut_right 6 0
                     (right_entry Ideal.DecodeDigit Ideal.FindGuardPattern
                        Ideal.row_cut_right 3 []))) = size Ideal.row_cut_right
  /\ out_status (Ideal.decode Ideal.row_cut_right 3 []) = NoError.
Proof. repeat split; vm_compute; reflexivity. Qed.

(** C2, witness: a row cut inside its left half is answered NotFound, and
    the row cut inside its right half is answered success with the ten
    characters decoded so far. *)
Lemma decodeMiddle_early_exit_witness :
  (size Ideal.row_cut_left
   <= rowOffset (left_exit Ideal.DecodeDigit Ideal.row_cut_left 3 [])
   /\ out_status (Ideal.decode Ideal.row_cut_left 3 []) = NotFound)
  /\ (size Ideal.row_cut_right
      <= out_rowOffset (Ideal.decode Ideal.row_cut_right 3 [])
      /\ out_status (Ideal.decode Ideal.row_cut_right 3 []) = NoError
      /\ Z.of_nat (length (out_result (Ideal.decode Ideal.row_cut_right 3 [])))
         = Z.of_nat (length (@nil ascii)) + 7
           + flow_x (right_half Ideal.DecodeDigit Ideal.row_cut_right 6 0
                       (right_entry Ideal.DecodeDigit Ideal.FindGuardPattern
                          Ideal.row_cut_right 3 []))).
Proof.
  split.
  - apply (proj1 (decodeMiddle_early_exit Ideal.DecodeDigit Ideal.FindGuardPattern
                    Ideal.row_cut_left 3 [] (ideal_FindGuardPattern_span _)));
      vm_compute; reflexivity.
  - apply (proj2 (decodeMiddle_early_exit Ideal.DecodeDigit Ideal.FindGuardPattern
                    Ideal.row_cut_right 3 [] (ideal_FindGuardPattern_span _)));
      vm_compute; reflexivity.
Defined.


(** C10, witness: the row cut after three left-half symbols, entered with
    the cursor at its end; the guard finder fails there, and that is the
    status returned, with the '0' left in the string. *)
Lemma decodeMiddle_at_end_witness :
  size Ideal.row_cut_left <= 24
  /\ Ideal.FindGuardPattern Ideal.row_cut_left 24 true MIDDLE_PATTERN
     = (NotFound, 0, 0)
  /\ Ideal.decode Ideal.row_cut_left 24 [] = (NotFound, 24, ["0"%char]).
Proof.
  split; [vm_compute; discriminate |].
  split; [vm_compute; reflexivity |].
  apply (proj1 (proj2 (proj2 (proj2 (proj2
           (decodeMiddle_at_end Ideal.DecodeDigit Ideal.FindGuardPattern
              Ideal.row_cut_left 24 [] ltac:(vm_compute; discriminate)))))
           NotFound 0 0 ltac:(vm_compute; reflexivity))).
  reflexivity.
Defined.

(** * Further properties of the reader *)

(** ** Definitions *)

(** The locals [s] with another result string. *)
Definition set_result (s : Locals) (r : cstring) : Locals :=
  {| rowOffset := rowOffset s; resultString := r;
     counters := counters s; lgPatternFound := lgPatternFound s |}.

(** A best match that is an index into the G half of the table. *)
Definition is_G (bestMatch : Z) : bool := 10 <=? bestMatch.

Definition count_G (ms : list Z) : nat := length (filter is_G ms).

(** The parity of the [k]-th best match of [ms], [false] when there is
    none. *)
Definition parity_at (ms : list Z) (k : nat) : bool :=
  match nth_error ms k with
  | Some bm => is_G bm
  | None => false
  end.

(** The mask that lines 105-107 build from the best matches [ms] of the
    rounds [x], [x + 1], ..., starting from the mask [P]. *)
Fixpoint parity_mask_from (x : Z) (ms : list Z) (P : Z) : Z :=
  match ms with
  | [] => P
  | bm :: ms' =>
      parity_mask_from (x + 1) ms'
        (if 10 <=? bm then Z.lor P (Z.shiftl 1 (5 - x)) else P)
  end.

(** The cursor after the rounds [steps] (the counters and best match of
    each) from the cursor [p]. *)
Definition script_end (p : Z) (steps : list (Counters * Z)) : Z :=
  fold_left (fun q step => advance q (fst step)) steps p.

(** The counters after the rounds [steps]. *)
Definition script_counters (cs : Counters) (steps : list (Counters * Z))
    : Counters :=
  fold_left (fun _ step => fst step) steps cs.

(** From the cursor [p] on, the matcher answers the rounds [steps], one
    after the other, each at a cursor inside the row. *)
Inductive matcher_script
    (DecodeDigit :
       BitArray -> Z -> list (list Z) -> Counters -> Z -> ErrorStatus * Counters * Z)
    (row : BitArray) (patterns : list (list Z))
    : Z -> list (Counters * Z) -> Prop :=
| script_done (p : Z) : matcher_script DecodeDigit row patterns p []
| script_round (p q : Z) (cs : Counters) (bm : Z) (rest : list (Counters * Z)) :
    p < size row ->
    (forall cs0, DecodeDigit row p patterns cs0 0 = (NoError, cs, bm)) ->
    q = advance p cs ->
    matcher_script DecodeDigit row patterns q rest ->
    matcher_script DecodeDigit row patterns p ((cs, bm) :: rest).

(** ** The result string is only written *)

Lemma left_body_set_result (x : Z) (s : Locals) (r : cstring) (cs : Counters)
    (bm : Z) :
  left_body x (set_result s r) cs bm
  = set_result (left_body x s cs bm) (r ++ [left_char bm]).
Proof.
  unfold left_body, set_result, push_back.
  cbn [rowOffset resultString counters lgPatternFound]. reflexivity.
Qed.

Lemma right_body_set_result (s : Locals) (r : cstring) (cs : Counters) (bm : Z) :
  right_body (set_result s r) cs bm
  = set_result (right_body s cs bm) (r ++ [right_char bm]).
Proof.
  unfold right_body, set_result, push_back.
  cbn [rowOffset resultString counters lgPatternFound]. reflexivity.
Qed.

Section Accumulator.

Variable DecodeDigit :
  BitArray -> Z -> list (list Z) -> Counters -> Z -> ErrorStatus * Counters * Z.
Variable FindGuardPattern :
  BitArray -> Z -> bool -> list Z -> ErrorStatus * Z * Z.
Variable row : BitArray.

Local Abbreviation left_half := (left_half DecodeDigit row).
Local Abbreviation right_half := (right_half DecodeDigit row).
Local Abbreviation left_matches := (left_matches DecodeDigit row).
Local Abbreviation right_matches := (right_matches DecodeDigit row).
Local Abbreviation decodeMiddle := (decodeMiddle DecodeDigit FindGuardPattern row).

(** The first loop run on another result string does the same rounds and
    appends the same characters to that string. *)
Lemma left_half_set_result (n : nat) (x : Z) (s : Locals) (r : cstring) :
  left_half n x (set_result s r)
  = (flow_return (left_half n x s), flow_x (left_half n x s),
     set_result (flow_locals (left_half n x s))
       (r ++ map left_char (left_matches n x s))).
Proof.
  revert x s r. induction n as [| n IH]; intros x s r.
  - cbn. now rewrite app_nil_r.
  - cbn [EAN13Reader.left_half EAN13Reader.left_matches].
    change (rowOffset (set_result s r)) with (rowOffset s).
    change (left_digit DecodeDigit row (set_result s r))
      with (left_digit DecodeDigit row s).
    destruct ((x <? 6) && (rowOffset s <? size row));
      [| cbn; now rewrite app_nil_r].
    destruct (left_digit DecodeDigit row s) as [[st cs] bm].
    destruct (StatusIsError st); [cbn; now rewrite app_nil_r |].
    rewrite left_body_set_result, IH. cbn [map]. now rewrite <- app_assoc.
Qed.

Lemma right_half_set_result (n : nat) (x : Z) (s : Locals) (r : cstring) :
  right_half n x (set_result s r)
  = (flow_return (right_half n x s), flow_x (right_half n x s),
     set_result (flow_locals (right_half n x s))
       (r ++ map right_char (right_matches n x s))).
Proof.
  revert x s r. induction n as [| n IH]; intros x s r.
  - cbn. now rewrite app_nil_r.
  - cbn [EAN13Reader.right_half EAN13Reader.right_matches].
    change (rowOffset (set_result s r)) with (rowOffset s).
    change (right_digit DecodeDigit row (set_result s r))
      with (right_digit DecodeDigit row s).
    destruct ((x <? 6) && (rowOffset s <? size row));
      [| cbn; now rewrite app_nil_r].
    destruct (right_digit DecodeDigit row s) as [[st cs] bm].
    destruct (StatusIsError st); [cbn; now rewrite app_nil_r |].
    rewrite right_body_set_result, IH. cbn [map]. now rewrite <- app_assoc.
Qed.

(** What the resolver does depends on the mask alone. *)
Lemma DetermineFirstDigit_prefix (P : Z) :
  exists st lead, forall res, DetermineFirstDigit res P = (st, lead ++ res).
Proof.
  destruct (DetermineFirstDigit_shape [] P) as [[HN _] | (d & Hd & Hn & _)].
  - exists NotFound, []. intros res.
    destruct (DetermineFirstDigit_shape res P) as [[_ HR] | (d & Hd & Hn & _)];
      [exact HR |].
    exfalso. apply HN. rewrite <- Hn. apply nth_In. cbn. lia.
  - exists NoError, [to_char (zero_char + d)]. intros res.
    assert (Hc : d = 0 \/ d = 1 \/ d = 2 \/ d = 3 \/ d = 4 \/ d = 5 \/ d = 6
                 \/ d = 7 \/ d = 8 \/ d = 9) by lia.
    rewrite DetermineFirstDigit_cases.
    repeat (destruct Hc as [-> | Hc]; [subst P; reflexivity |]).
    subst d P. reflexivity.
Qed.

(** From the search for the middle guard on, the characters are appended
    to whatever string the locals hold. *)
Lemma decode_from_guard_set_result (s : Locals) :
  exists st c tail, forall r,
    decode_from_guard DecodeDigit FindGuardPattern row (set_result s r)
    = (st, c, r ++ tail).
Proof.
  unfold decode_from_guard.
  change (rowOffset (set_result s ?r)) with (rowOffset s).
  destruct (FindGuardPattern row (rowOffset s) true MIDDLE_PATTERN) as [[st b] e].
  destruct (StatusIsError st).
  - exists st, (rowOffset s), []. intros r. cbn. now rewrite app_nil_r.
  - set (s1 := {| rowOffset := e; resultString := resultString s;
                  counters := counters s; lgPatternFound := lgPatternFound s |}).
    exists (match flow_return (right_half 6 0 s1) with
            | Some st' => st'
            | None => NoError
            end),
      (rowOffset (flow_locals (right_half 6 0 s1))),
      (map right_char (right_matches 6 0 s1)).
    intros r. unfold decode_right.
    change {| rowOffset := e; resultString := resultString (set_result s r);
              counters := counters (set_result s r);
              lgPatternFound := lgPatternFound (set_result s r) |}
      with (set_result s1 r).
    rewrite right_half_set_result.
    destruct (flow_return (right_half 6 0 s1)); reflexivity.
Qed.

(** X1: decodeMiddle never reads the result string: the status, the
    cursor it leaves, the character it puts in front and the characters
    it appends are the same whatever string it is given. *)
Theorem decodeMiddle_result_string_unread (off : Z) :
  exists st c lead tail, forall res,
    decodeMiddle off res = (st, c, lead ++ res ++ tail).
Proof.
  unfold decodeMiddle, EAN13Reader.decodeMiddle.
  set (s0 := entry off []).
  set (f := left_half 6 0 s0).
  set (Lc := map left_char (left_matches 6 0 s0)).
  assert (Hl : forall res,
             left_half 6 0 (entry off res)
             = (flow_return f, flow_x f, set_result (flow_locals f) (res ++ Lc))).
  { intros res. change (entry off res) with (set_result s0 res).
    apply left_half_set_result. }
  destruct (flow_return f) as [st |] eqn:Hret.
  - exists st, (rowOffset (flow_locals f)), [], Lc. intros res.
    rewrite Hl. reflexivity.
  - destruct (DetermineFirstDigit_prefix (lgPatternFound (flow_locals f)))
      as (st & lead & Hd).
    destruct (StatusIsError st) eqn:Hst.
    + exists st, (rowOffset (flow_locals f)), lead, Lc. intros res.
      rewrite Hl. unfold decode_from_first_digit.
      cbn [resultString lgPatternFound rowOffset set_result].
      rewrite Hd, Hst. reflexivity.
    + destruct (decode_from_guard_set_result (flow_locals f)) as (st' & c & tail & Hg).
      exists st', c, lead, (Lc ++ tail). intros res.
      rewrite Hl. unfold decode_from_first_digit.
      cbn [resultString lgPatternFound rowOffset counters set_result].
      rewrite Hd, Hst.
      change {| rowOffset := rowOffset (flow_locals f);
                resultString := lead ++ res ++ Lc;
                counters := counters (flow_locals f);
                lgPatternFound := lgPatternFound (flow_locals f) |}
        with (set_result (flow_locals f) (lead ++ res ++ Lc)).
      rewrite Hg. now rewrite <- !app_assoc.
Qed.

End Accumulator.

(** ** Failing runs, and runs that succeed *)

Lemma DetermineFirstDigit_hit (res : cstring) (d : Z) :
  0 <= d < 10 ->
  DetermineFirstDigit res (nth (Z.to_nat d) FIRST_DIGIT_ENCODINGS 0)
  = (NoError, to_char (zero_char + d) :: res).
Proof.
  intros Hd.
  assert (Hc : d = 0 \/ d = 1 \/ d = 2 \/ d = 3 \/ d = 4 \/ d = 5 \/ d = 6
               \/ d = 7 \/ d = 8 \/ d = 9) by lia.
  repeat (destruct Hc as [-> | Hc]; [reflexivity |]). subst d. reflexivity.
Qed.

(** The fields of the locals after the body of the second loop, and the
    scripts of a list of rounds that starts with a given round. *)
Lemma right_body_rowOffset (s : Locals) (cs : Counters) (bm : Z) :
  rowOffset (right_body s cs bm) = advance (rowOffset s) cs.
Proof. reflexivity. Qed.

Lemma right_body_resultString (s : Locals) (cs : Counters) (bm : Z) :
  resultString (right_body s cs bm) = push_back (resultString s) (right_char bm).
Proof. reflexivity. Qed.

Lemma right_body_counters (s : Locals) (cs : Counters) (bm : Z) :
  counters (right_body s cs bm) = cs.
Proof. reflexivity. Qed.

Lemma right_body_lgPatternFound (s : Locals) (cs : Counters) (bm : Z) :
  lgPatternFound (right_body s cs bm) = lgPatternFound s.
Proof. reflexivity. Qed.

Lemma script_end_cons (p : Z) (step : Counters * Z) (steps : list (Counters * Z)) :
  script_end p (step :: steps) = script_end (advance p (fst step)) steps.
Proof. reflexivity. Qed.

Lemma script_counters_cons (cs : Counters) (step : Counters * Z)
    (steps : list (Counters * Z)) :
  script_counters cs (step :: steps) = script_counters (fst step) steps.
Proof. reflexivity. Qed.

Lemma left_body_rowOffset (x : Z) (s : Locals) (cs : Counters) (bm : Z) :
  rowOffset (left_body x s cs bm) = advance (rowOffset s) cs.
Proof. reflexivity. Qed.

Lemma left_body_resultString (x : Z) (s : Locals) (cs : Counters) (bm : Z) :
  resultString (left_body x s cs bm) = push_back (resultString s) (left_char bm).
Proof. reflexivity. Qed.

Lemma left_body_counters (x : Z) (s : Locals) (cs : Counters) (bm : Z) :
  counters (left_body x s cs bm) = cs.
Proof. reflexivity. Qed.

Lemma left_body_lgPatternFound (x : Z) (s : Locals) (cs : Counters) (bm : Z) :
  lgPatternFound (left_body x s cs bm)
  = if 10 <=? bm then Z.lor (lgPatternFound s) (Z.shiftl 1 (5 - x))
    else lgPatternFound s.
Proof. reflexivity. Qed.

Lemma parity_mask_from_cons (x bm : Z) (ms : list Z) (P : Z) :
  parity_mask_from x (bm :: ms) P
  = parity_mask_from (x + 1) ms
      (if 10 <=? bm then Z.lor P (Z.shiftl 1 (5 - x)) else P).
Proof. reflexivity. Qed.

Section Runs.

Variable DecodeDigit :
  BitArray -> Z -> list (list Z) -> Counters -> Z -> ErrorStatus * Counters * Z.
Variable FindGuardPattern :
  BitArray -> Z -> bool -> list Z -> ErrorStatus * Z * Z.
Variable row : BitArray.

Local Abbreviation left_half := (left_half DecodeDigit row).
Local Abbreviation right_half := (right_half DecodeDigit row).
Local Abbreviation left_matches := (left_matches DecodeDigit row).
Local Abbreviation left_exit := (left_exit DecodeDigit row).
Local Abbreviation right_entry := (right_entry DecodeDigit FindGuardPattern row).
Local Abbreviation decodeMiddle := (decodeMiddle DecodeDigit FindGuardPattern row).

(** X2: entered with the cursor at or past the end of the row (an empty
    row, for one), decodeMiddle answers NotFound and leaves the cursor
    where it was, but not the result string: the character '0' has been
    put in front of it.  The guard finder is taken to return only spans
    inside the row. *)
Theorem decodeMiddle_exhausted_row (off : Z) (res : cstring) :
  guard_contract FindGuardPattern row ->
  size row <= off ->
  decodeMiddle off res = (NotFound, off, "0"%char :: res).
Proof.
  intros HG Hend.
  assert (Hl : left_half 6 0 (entry off res) = (None, 0, entry off res)).
  { cbn [EAN13Reader.left_half entry rowOffset].
    destruct (Z.ltb_spec off (size row)); [lia | reflexivity]. }
  assert (Hd : DetermineFirstDigit res 0 = (NoError, "0"%char :: res))
    by reflexivity.
  unfold decodeMiddle, EAN13Reader.decodeMiddle. rewrite Hl.
  unfold decode_from_first_digit.
  cbn [resultString lgPatternFound rowOffset counters entry].
  rewrite Hd. cbn [StatusIsError]. unfold decode_from_guard.
  cbn [resultString lgPatternFound rowOffset counters].
  destruct (FindGuardPattern row off true MIDDLE_PATTERN) as [[st b] e] eqn:Hg.
  destruct st; [| reflexivity].
  apply HG in Hg. lia.
Qed.

(** X7: however decodeMiddle returns, with success or with an error, the
    cursor it leaves is not before the cursor it was given, and not past
    the end of the row unless it was given there.  The counters of the
    matcher are taken to be lengths of runs of the row from the cursor
    on, and the guard finder to return spans inside the row. *)
Theorem decodeMiddle_cursor_bounds (off : Z) (res : cstring) :
  matcher_runs_contract DecodeDigit row L_AND_G_PATTERNS ->
  matcher_runs_contract DecodeDigit row L_PATTERNS ->
  guard_contract FindGuardPattern row ->
  INT_MIN <= off -> size row <= INT_MAX ->
  off <= out_rowOffset (decodeMiddle off res) <= Z.max off (size row).
Proof.
  intros HCL HCR HG Hlo Hfit.
  pose proof (left_half_cursor DecodeDigit row Hfit 6 0 (entry off res) HCL
                ltac:(lia) Hlo) as HL.
  cbn [rowOffset entry] in HL.
  destruct (decodeMiddle_paths DecodeDigit FindGuardPattern row off res)
    as [(st & _ & _ & Ho) | [(_ & _ & Ho) | (_ & d & _ & _ & [(st & b & e & _ & _ & Ho)
                                                             | (b & e & Hg & He & Ho)])]];
    rewrite Ho; cbn [out_rowOffset fst snd]; try exact HL.
  apply HG in Hg.
  pose proof (right_half_cursor DecodeDigit row Hfit 6 0 (right_entry off res) HCR
                ltac:(lia)) as HR.
  rewrite He in HR. cbn [rowOffset] in HR. rewrite <- He in HR.
  specialize (HR ltac:(lia)). lia.
Qed.

(** The first loop on a row where the matcher answers the rounds
    [steps]. *)
Lemma left_half_script (steps : list (Counters * Z)) :
  forall (x : Z) (s : Locals),
    matcher_script DecodeDigit row L_AND_G_PATTERNS (rowOffset s) steps ->
    0 <= x -> x + Z.of_nat (length steps) <= 6 ->
    left_half (length steps) x s
    = (None, x + Z.of_nat (length steps),
       {| rowOffset := script_end (rowOffset s) steps;
          resultString := resultString s ++ map left_char (map snd steps);
          counters := script_counters (counters s) steps;
          lgPatternFound :=
            parity_mask_from x (map snd steps) (lgPatternFound s) |}).
Proof.
  induction steps as [| [cs bm] steps IH]; intros x s Hs Hx Hlen.
  - cbn. rewrite app_nil_r, Z.add_0_r. destruct s; reflexivity.
  - inversion Hs as [| p q cs' bm' rest Hp Hd Hq Hrest]; subst.
    cbn [length] in *.
    cbn [EAN13Reader.left_half].
    destruct (Z.ltb_spec x 6) as [_ | Hx6]; [| lia].
    destruct (Z.ltb_spec (rowOffset s) (size row)) as [_ | Hoff]; [| lia].
    cbn [andb]. unfold left_digit. rewrite Hd. cbn [StatusIsError].
    rewrite (IH (x + 1) (left_body x s cs bm)); [| exact Hrest | lia | lia].
    rewrite left_body_rowOffset, left_body_resultString, left_body_counters,
      left_body_lgPatternFound.
    rewrite script_end_cons, script_counters_cons.
    cbn [map snd fst]. rewrite parity_mask_from_cons.
    unfold push_back. rewrite <- app_assoc. cbn [app].
    replace (x + Z.of_nat (S (length steps))) with (x + 1 + Z.of_nat (length steps))
      by lia.
    reflexivity.
Qed.

Lemma right_half_script (steps : list (Counters * Z)) :
  forall (x : Z) (s : Locals),
    matcher_script DecodeDigit row L_PATTERNS (rowOffset s) steps ->
    0 <= x -> x + Z.of_nat (length steps) <= 6 ->
    right_half (length steps) x s
    = (None, x + Z.of_nat (length steps),
       {| rowOffset := script_end (rowOffset s) steps;
          resultString := resultString s ++ map right_char (map snd steps);
          counters := script_counters (counters s) steps;
          lgPatternFound := lgPatternFound s |}).
Proof.
  induction steps as [| [cs bm] steps IH]; intros x s Hs Hx Hlen.
  - cbn. rewrite app_nil_r, Z.add_0_r. destruct s; reflexivity.
  - inversion Hs as [| p q cs' bm' rest Hp Hd Hq Hrest]; subst.
    cbn [length] in *.
    cbn [EAN13Reader.right_half].
    destruct (Z.ltb_spec x 6) as [_ | Hx6]; [| lia].
    destruct (Z.ltb_spec (rowOffset s) (size row)) as [_ | Hoff]; [| lia].
    cbn [andb]. unfold right_digit. rewrite Hd. cbn [StatusIsError].
    rewrite (IH (x + 1) (right_body s cs bm)); [| exact Hrest | lia | lia].
    rewrite right_body_rowOffset, right_body_resultString, right_body_counters,
      right_body_lgPatternFound.
    rewrite script_end_cons, script_counters_cons.
    cbn [map snd fst].
    unfold push_back. rewrite <- app_assoc. cbn [app].
    replace (x + Z.of_nat (S (length steps))) with (x + 1 + Z.of_nat (length steps))
      by lia.
    reflexivity.
Qed.


End Runs.

(** ** The parities of the left half *)

Lemma to_char_code (z : Z) : Z.of_N (N_of_ascii (to_char z)) = z mod 256.
Proof.
  unfold to_char. pose proof (Z.mod_pos_bound z 256 ltac:(lia)) as Hz.
  rewrite N_ascii_embedding by lia. lia.
Qed.

Lemma parity_bit_at (ms : list Z) :
  forall (x : Z) (k : nat), parity_bit x ms (x + Z.of_nat k) = parity_at ms k.
Proof.
  induction ms as [| bm ms IH]; intros x k.
  - destruct k; reflexivity.
  - cbn [parity_bit]. destruct k as [| k].
    + rewrite Z.add_0_r, Z.eqb_refl. reflexivity.
    + destruct (Z.eqb_spec (x + Z.of_nat (S k)) x) as [He | _]; [lia |].
      replace (x + Z.of_nat (S k)) with (x + 1 + Z.of_nat k) by lia.
      rewrite IH. reflexivity.
Qed.

(** The best matches are all below 10 exactly when none has the parity
    of a G pattern. *)
Lemma all_odd_parity_at (ms : list Z) :
  Forall (fun bm => bm < 10) ms <-> forall k, parity_at ms k = false.
Proof.
  rewrite Forall_forall. unfold parity_at, is_G. split.
  - intros H k. destruct (nth_error ms k) as [bm |] eqn:Hk; [| reflexivity].
    apply nth_error_In in Hk. apply H in Hk. apply Z.leb_gt. exact Hk.
  - intros H bm Hin. apply In_nth_error in Hin. destruct Hin as [k Hk].
    specialize (H k). rewrite Hk in H. apply Z.leb_gt in H. exact H.
Qed.

Lemma parity_at_beyond (ms : list Z) (k : nat) :
  (length ms <= k)%nat -> parity_at ms k = false.
Proof.
  intros H. unfold parity_at.
  now rewrite (proj2 (nth_error_None ms k) H).
Qed.

(** With at most six best matches, those of the G half are counted by the
    six parities. *)
Lemma count_G_parities (ms : list Z) :
  (length ms <= 6)%nat ->
  count_G ms
  = (Nat.b2n (parity_at ms 0) + Nat.b2n (parity_at ms 1)
     + Nat.b2n (parity_at ms 2) + Nat.b2n (parity_at ms 3)
     + Nat.b2n (parity_at ms 4) + Nat.b2n (parity_at ms 5))%nat.
Proof.
  intros Hlen. unfold count_G, parity_at.
  destruct ms as [| m0 [| m1 [| m2 [| m3 [| m4 [| m5 [| m6 ms]]]]]]];
    cbn [length] in Hlen; try lia;
    cbn [filter nth_error length];
    repeat match goal with
      | |- context [is_G ?m] => destruct (is_G m)
      end; reflexivity.
Qed.

(** The entries of the table: bit 5 is clear in all of them, and the
    number of bits set is 0 in the entry 0 and 3 in the others. *)
Lemma FIRST_DIGIT_ENCODINGS_bits (P : Z) :
  In P FIRST_DIGIT_ENCODINGS ->
  Z.testbit P 5 = false
  /\ (Nat.b2n (Z.testbit P 5) + Nat.b2n (Z.testbit P 4)
      + Nat.b2n (Z.testbit P 3) + Nat.b2n (Z.testbit P 2)
      + Nat.b2n (Z.testbit P 1) + Nat.b2n (Z.testbit P 0)
      = if (P =? 0)%Z then 0 else 3)%nat.
Proof.
  unfold FIRST_DIGIT_ENCODINGS. cbn [In]. intros H.
  repeat (destruct H as [<- | H]; [split; reflexivity |]). contradiction.
Qed.

Section Parities.

Variable DecodeDigit :
  BitArray -> Z -> list (list Z) -> Counters -> Z -> ErrorStatus * Counters * Z.
Variable row : BitArray.

Local Abbreviation left_half := (left_half DecodeDigit row).
Local Abbreviation left_matches := (left_matches DecodeDigit row).
Local Abbreviation left_exit := (left_exit DecodeDigit row).

Lemma left_matches_length (n : nat) (off : Z) (res : cstring) :
  (length (left_matches n 0 (entry off res)) <= 6)%nat.
Proof.
  pose proof (proj1 (left_half_trace DecodeDigit row n 0 (entry off res))) as Hx.
  pose proof (left_half_x_bounds DecodeDigit row n 0 (entry off res) ltac:(lia)).
  lia.
Qed.

(** Bit [5 - k] of the mask is the parity of the [k]-th best match. *)
Lemma left_half_mask_at (n : nat) (off : Z) (res : cstring) (k : nat) :
  (k < 6)%nat ->
  Z.testbit (lgPatternFound (flow_locals (left_half n 0 (entry off res))))
    (5 - Z.of_nat k)
  = parity_at (left_matches n 0 (entry off res)) k.
Proof.
  intros Hk. rewrite left_half_mask by lia.
  cbn [lgPatternFound entry]. rewrite Z.testbit_0_l, orb_false_l.
  replace (5 - (5 - Z.of_nat k)) with (0 + Z.of_nat k) by lia.
  apply parity_bit_at.
Qed.

Lemma resolver_success_In (res : cstring) (P : Z) :
  fst (DetermineFirstDigit res P) = NoError -> In P FIRST_DIGIT_ENCODINGS.
Proof.
  destruct (DetermineFirstDigit_shape res P) as [[_ HR] | (d & Hd & Hn & _)].
  - rewrite HR. discriminate.
  - intros _. rewrite <- Hn. apply nth_In. cbn. lia.
Qed.

(** X3: when the resolver accepts the mask that the first loop built, the
    first left-half digit was decoded with a best match below 10 (an L
    pattern), and the number of left-half digits decoded with a best
    match of 10 or more (G patterns) is none or three. *)
Theorem left_half_parity_structure (off : Z) (res : cstring) :
  fst (DetermineFirstDigit (resultString (left_exit off res))
         (lgPatternFound (left_exit off res))) = NoError ->
  (forall bm, nth_error (left_matches 6 0 (entry off res)) 0 = Some bm -> bm < 10)
  /\ (count_G (left_matches 6 0 (entry off res)) = 0%nat
      \/ count_G (left_matches 6 0 (entry off res)) = 3%nat).
Proof.
  intros Hok. apply resolver_success_In in Hok.
  apply FIRST_DIGIT_ENCODINGS_bits in Hok. destruct Hok as [H5 Hsum].
  unfold left_exit, EAN13Reader.left_exit in *.
  pose proof (left_half_mask_at 6 off res 0 ltac:(lia)) as B0.
  pose proof (left_half_mask_at 6 off res 1 ltac:(lia)) as B1.
  pose proof (left_half_mask_at 6 off res 2 ltac:(lia)) as B2.
  pose proof (left_half_mask_at 6 off res 3 ltac:(lia)) as B3.
  pose proof (left_half_mask_at 6 off res 4 ltac:(lia)) as B4.
  pose proof (left_half_mask_at 6 off res 5 ltac:(lia)) as B5.
  change (5 - Z.of_nat 0) with 5 in B0. change (5 - Z.of_nat 1) with 4 in B1.
  change (5 - Z.of_nat 2) with 3 in B2. change (5 - Z.of_nat 3) with 2 in B3.
  change (5 - Z.of_nat 4) with 1 in B4. change (5 - Z.of_nat 5) with 0 in B5.
  split.
  - intros bm Hbm. rewrite H5 in B0. unfold parity_at in B0. rewrite Hbm in B0.
    unfold is_G in B0. symmetry in B0. apply Z.leb_gt in B0. exact B0.
  - rewrite (count_G_parities _ (left_matches_length 6 off res)).
    rewrite <- B0, <- B1, <- B2, <- B3, <- B4, <- B5, Hsum.
    destruct (_ =? 0); [left | right]; reflexivity.
Qed.

(** X4: when the resolver accepts the mask, the character it puts in
    front is '0' exactly when every left-half digit was decoded with a
    best match below 10: a left half of L patterns only, the parity of a
    UPC-A symbol, gets the leading digit 0. *)
Theorem leading_zero_iff_all_odd (off : Z) (res : cstring) (r : cstring) :
  DetermineFirstDigit (resultString (left_exit off res))
    (lgPatternFound (left_exit off res)) = (NoError, r) ->
  (hd_error r = Some "0"%char
   <-> Forall (fun bm => bm < 10) (left_matches 6 0 (entry off res))).
Proof.
  intros Hr. unfold left_exit, EAN13Reader.left_exit in *.
  pose proof (left_half_mask_at 6 off res 0 ltac:(lia)) as B0.
  pose proof (left_half_mask_at 6 off res 1 ltac:(lia)) as B1.
  pose proof (left_half_mask_at 6 off res 2 ltac:(lia)) as B2.
  pose proof (left_half_mask_at 6 off res 3 ltac:(lia)) as B3.
  pose proof (left_half_mask_at 6 off res 4 ltac:(lia)) as B4.
  pose proof (left_half_mask_at 6 off res 5 ltac:(lia)) as B5.
  change (5 - Z.of_nat 0) with 5 in B0. change (5 - Z.of_nat 1) with 4 in B1.
  change (5 - Z.of_nat 2) with 3 in B2. change (5 - Z.of_nat 3) with 2 in B3.
  change (5 - Z.of_nat 4) with 1 in B4. change (5 - Z.of_nat 5) with 0 in B5.
  pose proof (left_matches_length 6 off res) as Hlen.
  set (ms := left_matches 6 0 (entry off res)) in *.
  assert (Hall : Forall (fun bm => bm < 10) ms
                 <-> parity_at ms 0 = false /\ parity_at ms 1 = false
                     /\ parity_at ms 2 = false /\ parity_at ms 3 = false
                     /\ parity_at ms 4 = false /\ parity_at ms 5 = false).
  { rewrite all_odd_parity_at. split.
    - intros H. repeat split; apply H.
    - intros (H0 & H1 & H2 & H3 & H4 & H5) k.
      destruct k as [| [| [| [| [| [| k]]]]]]; try assumption.
      apply parity_at_beyond. lia. }
  rewrite Hall. rewrite <- B0, <- B1, <- B2, <- B3, <- B4, <- B5.
  clear Hall B0 B1 B2 B3 B4 B5 Hlen.
  destruct (DetermineFirstDigit_shape
              (resultString (flow_locals (left_half 6 0 (entry off res))))
              (lgPatternFound (flow_locals (left_half 6 0 (entry off res)))))
    as [[_ HR] | (d & Hd & Hn & HR)]; rewrite HR in Hr; [discriminate |].
  apply (f_equal snd) in Hr. cbn [snd] in Hr. subst r. rewrite <- Hn.
  cbn [hd_error].
  assert (Hc : d = 0 \/ d = 1 \/ d = 2 \/ d = 3 \/ d = 4 \/ d = 5 \/ d = 6
               \/ d = 7 \/ d = 8 \/ d = 9) by lia.
  clear Hn HR.
  repeat (destruct Hc as [-> | Hc];
          [vm_compute; split;
           [intros H; try discriminate H; repeat split
           | intros (H0 & H1 & H2 & H3 & H4 & H5); try discriminate; reflexivity] |]).
  subst d. vm_compute. split;
    [intros H; discriminate H
    | intros (H0 & H1 & H2 & H3 & H4 & H5); discriminate].
Qed.

(** X5: nothing of a best match is lost.  With a matcher that answers with
    indices into its 20-entry table, the [k]-th best match of the first
    loop is read back from what the loop leaves: ten times bit [5 - k] of
    the mask plus the digit that is the [k]-th character appended to the
    result string. *)
Theorem left_matches_read_back (n : nat) (off : Z) (res : cstring)
    (k : nat) (bm : Z) :
  matcher_index_contract DecodeDigit row L_AND_G_PATTERNS ->
  nth_error (left_matches n 0 (entry off res)) k = Some bm ->
  exists c,
    nth_error (resultString (flow_locals (left_half n 0 (entry off res))))
      (length res + k) = Some c
    /\ bm = 10 * Z.b2z (Z.testbit
                          (lgPatternFound
                             (flow_locals (left_half n 0 (entry off res))))
                          (5 - Z.of_nat k))
            + (Z.of_N (N_of_ascii c) - zero_char).
Proof.
  intros HC Hk.
  assert (Hlt : (k < length (left_matches n 0 (entry off res)))%nat)
    by (apply nth_error_Some; congruence).
  pose proof (left_matches_length n off res) as Hlen.
  assert (Hbm : 0 <= bm < 20).
  { assert (HF : Forall (fun bm => 0 <= bm < 20) (left_matches n 0 (entry off res))).
    { apply (left_matches_Forall DecodeDigit row).
      intros o cs0 bm0 cs bm' H. apply HC in H. cbn in H. lia. }
    rewrite Forall_forall in HF. apply HF. eapply nth_error_In. exact Hk. }
  exists (left_char bm). split.
  - rewrite (proj2 (left_half_trace DecodeDigit row n 0 (entry off res))).
    cbn [resultString entry].
    rewrite nth_error_app2 by lia.
    replace (length res + k - length res)%nat with k by lia.
    rewrite nth_error_map, Hk. reflexivity.
  - rewrite left_half_mask_at by lia. unfold parity_at. rewrite Hk.
    unfold left_char. rewrite to_char_code, int_rem_nonneg by lia.
    unfold is_G, zero_char.
    pose proof (Z.mod_pos_bound bm 10 ltac:(lia)) as Hm.
    rewrite (Z.mod_small (48 + bm mod 10) 256) by lia.
    destruct (Z.leb_spec 10 bm) as [Hge | Hltb]; cbn [Z.b2z].
    + assert (bm mod 10 = bm - 10); [| lia].
      symmetry. apply (Z.mod_unique_pos bm 10 1). lia. lia.
    + rewrite Z.mod_small by lia. lia.
Qed.

End Parities.

(** ** The further properties on concrete scanlines *)

(** X2, witness: the row cut after three left-half symbols, entered at
    its end. *)
Lemma decodeMiddle_exhausted_row_witness :
  size Ideal.row_cut_left <= 24
  /\ Ideal.decode Ideal.row_cut_left 24 [] = (NotFound, 24, ["0"%char]).
Proof.
  split; [vm_compute; discriminate |].
  apply (decodeMiddle_exhausted_row Ideal.DecodeDigit Ideal.FindGuardPattern
           Ideal.row_cut_left 24 []).
  - apply ideal_FindGuardPattern_span.
  - vm_compute. discriminate.
Defined.

(** X3, witness: in the row of 5 901234 123457 the first left-half digit
    is an L pattern and three of the six are G patterns. *)
Lemma left_half_parity_structure_witness :
  count_G (left_matches Ideal.DecodeDigit Ideal.row_5901234123457 6 0 (entry 3 []))
  = 3%nat
  /\ (forall bm,
         nth_error (left_matches Ideal.DecodeDigit Ideal.row_5901234123457 6 0
                      (entry 3 [])) 0 = Some bm -> bm < 10)
  /\ (count_G (left_matches Ideal.DecodeDigit Ideal.row_5901234123457 6 0
                 (entry 3 [])) = 0%nat
      \/ count_G (left_matches Ideal.DecodeDigit Ideal.row_5901234123457 6 0
                    (entry 3 [])) = 3%nat).
Proof.
  split; [vm_compute; reflexivity |].
  apply (left_half_parity_structure Ideal.DecodeDigit Ideal.row_5901234123457 3 []).
  vm_compute. reflexivity.
Defined.

(** X4, witness: the row of 0 000000 000000 has a left half of L
    patterns only, and gets the leading digit 0. *)
Lemma leading_zero_iff_all_odd_witness :
  hd_error (list_ascii_of_string "0000000") = Some "0"%char
  <-> Forall (fun bm => bm < 10)
        (left_matches Ideal.DecodeDigit Ideal.row_zeros 6 0 (entry 3 [])).
Proof.
  apply (leading_zero_iff_all_odd Ideal.DecodeDigit Ideal.row_zeros 3 []).
  vm_compute. reflexivity.
Defined.

(** X5, witness: the second best match of the row of 5 901234 123457 is
    10, the G pattern of the digit 0. *)
Lemma left_matches_read_back_witness :
  exists c,
    nth_error (resultString
                 (flow_locals (left_half Ideal.DecodeDigit Ideal.row_5901234123457
                                 6 0 (entry 3 []))))
      (length (@nil ascii) + 1) = Some c
    /\ 10 = 10 * Z.b2z (Z.testbit
                          (lgPatternFound
                             (flow_locals
                                (left_half Ideal.DecodeDigit Ideal.row_5901234123457
                                   6 0 (entry 3 []))))
                          (5 - Z.of_nat 1))
            + (Z.of_N (N_of_ascii c) - zero_char).
Proof.
  apply (left_matches_read_back Ideal.DecodeDigit Ideal.row_5901234123457 6 3 [] 1 10).
  - apply ideal_DecodeDigit_index.
  - vm_compute. reflexivity.
Defined.


(** X7, witness: the row of 5 901234 123457 cut inside its right half. *)
Lemma decodeMiddle_cursor_bounds_witness :
  3 <= out_rowOffset (Ideal.decode Ideal.row_cut_right 3 [])
    <= Z.max 3 (size Ideal.row_cut_right).
Proof.
  apply (decodeMiddle_cursor_bounds Ideal.DecodeDigit Ideal.FindGuardPattern
           Ideal.row_cut_right 3 []).
  - apply ideal_DecodeDigit_runs.
  - apply ideal_DecodeDigit_runs.
  - apply ideal_FindGuardPattern_span.
  - vm_compute. discriminate.
  - vm_compute. discriminate.
Defined.

(** ** The characters of the digits *)

Lemma to_char_small (z : Z) : 0 <= z < 256 -> to_char z = ascii_of_N (Z.to_N z).
Proof. intros H. unfold to_char. now rewrite Z.mod_small by lia. Qed.

Lemma left_char_explicit (bm : Z) :
  0 <= bm -> left_char bm = ascii_of_N (Z.to_N (48 + bm mod 10)).
Proof.
  intros H. unfold left_char, zero_char. rewrite int_rem_nonneg by exact H.
  pose proof (Z.mod_pos_bound bm 10 ltac:(lia)). apply to_char_small. lia.
Qed.

Lemma right_char_explicit (bm : Z) :
  0 <= bm < 10 -> right_char bm = ascii_of_N (Z.to_N (48 + bm)).
Proof.
  intros H. unfold right_char, zero_char. rewrite int_add_exact.
  - apply to_char_small. lia.
  - unfold INT_MIN, INT_MAX. lia.
Qed.

Section Characters.

Variable DecodeDigit :
  BitArray -> Z -> list (list Z) -> Counters -> Z -> ErrorStatus * Counters * Z.
Variable FindGuardPattern :
  BitArray -> Z -> bool -> list Z -> ErrorStatus * Z * Z.
Variable row : BitArray.

Local Abbreviation left_half := (left_half DecodeDigit row).
Local Abbreviation right_half := (right_half DecodeDigit row).
Local Abbreviation left_matches := (left_matches DecodeDigit row).
Local Abbreviation right_matches := (right_matches DecodeDigit row).
Local Abbreviation left_exit := (left_exit DecodeDigit row).
Local Abbreviation right_entry := (right_entry DecodeDigit FindGuardPattern row).
Local Abbreviation decodeMiddle := (decodeMiddle DecodeDigit FindGuardPattern row).

Lemma left_chars_explicit (n : nat) (x : Z) (s : Locals) :
  matcher_index_contract DecodeDigit row L_AND_G_PATTERNS ->
  map left_char (left_matches n x s)
  = map (fun bm => ascii_of_N (Z.to_N (48 + bm mod 10))) (left_matches n x s).
Proof.
  intros HC. apply map_ext_in. intros bm Hin.
  assert (HF : Forall (fun bm => 0 <= bm) (left_matches n x s)).
  { apply (left_matches_Forall DecodeDigit row).
    intros o cs0 bm0 cs bm' H. apply HC in H. lia. }
  rewrite Forall_forall in HF. apply left_char_explicit, HF, Hin.
Qed.

Lemma right_chars_explicit (n : nat) (x : Z) (s : Locals) :
  matcher_index_contract DecodeDigit row L_PATTERNS ->
  map right_char (right_matches n x s)
  = map (fun bm => ascii_of_N (Z.to_N (48 + bm))) (right_matches n x s).
Proof.
  intros HC. apply map_ext_in. intros bm Hin.
  assert (HF : Forall (fun bm => 0 <= bm < 10) (right_matches n x s)).
  { apply (right_matches_Forall DecodeDigit row).
    intros o cs0 bm0 cs bm' H. apply HC in H. cbn in H. lia. }
  rewrite Forall_forall in HF. apply right_char_explicit, HF, Hin.
Qed.

(** C4: with a matcher that answers with indices into the table it is
    given, a round of the first loop calls the matcher with the 20-entry
    L-and-G table and appends the character of code 48 + (best match mod
    10); a round of the second loop calls it with the 10-entry L table
    and appends the character of code 48 + best match; and on a
    successful run the first loop has appended its six digits to the
    given string, with nothing in front of it, when the leading digit,
    the one whose table entry is the mask, is put at position 0: the
    result is that digit, the given string, the six left digits and the
    right digits. *)
Theorem decodeMiddle_digit_characters (off : Z) (res : cstring) :
  matcher_index_contract DecodeDigit row L_AND_G_PATTERNS ->
  matcher_index_contract DecodeDigit row L_PATTERNS ->
  guard_contract FindGuardPattern row ->
  (forall x s cs bm,
      0 <= x < 6 -> rowOffset s < size row ->
      DecodeDigit row (rowOffset s) L_AND_G_PATTERNS (counters s) 0
      = (NoError, cs, bm) ->
      flow_return (left_half 1 x s) = None
      /\ flow_x (left_half 1 x s) = x + 1
      /\ resultString (flow_locals (left_half 1 x s))
         = resultString s ++ [ascii_of_N (Z.to_N (48 + bm mod 10))])
  /\ (forall x s cs bm,
        0 <= x < 6 -> rowOffset s < size row ->
        DecodeDigit row (rowOffset s) L_PATTERNS (counters s) 0
        = (NoError, cs, bm) ->
        flow_return (right_half 1 x s) = None
        /\ flow_x (right_half 1 x s) = x + 1
        /\ resultString (flow_locals (right_half 1 x s))
           = resultString s ++ [ascii_of_N (Z.to_N (48 + bm))])
  /\ (forall n,
        resultString (flow_locals (left_half n 0 (entry off res)))
        = res ++ map (fun bm => ascii_of_N (Z.to_N (48 + bm mod 10)))
                   (left_matches n 0 (entry off res)))
  /\ (out_status (decodeMiddle off res) = NoError ->
      exists d,
        0 <= d < 10
        /\ nth (Z.to_nat d) FIRST_DIGIT_ENCODINGS 0
           = lgPatternFound (left_exit off res)
        /\ length (left_matches 6 0 (entry off res)) = 6%nat
        /\ resultString (left_exit off res)
           = res ++ map (fun bm => ascii_of_N (Z.to_N (48 + bm mod 10)))
                      (left_matches 6 0 (entry off res))
        /\ out_result (decodeMiddle off res)
           = ascii_of_N (Z.to_N (48 + d))
             :: res
                ++ map (fun bm => ascii_of_N (Z.to_N (48 + bm mod 10)))
                     (left_matches 6 0 (entry off res))
                ++ map (fun bm => ascii_of_N (Z.to_N (48 + bm)))
                     (right_matches 6 0 (right_entry off res))).
Proof.
  intros HCL HCR HG.
  assert (Hprefix : forall n,
             resultString (flow_locals (left_half n 0 (entry off res)))
             = res ++ map (fun bm => ascii_of_N (Z.to_N (48 + bm mod 10)))
                        (left_matches n 0 (entry off res))).
  { intros n.
    rewrite (proj2 (left_half_trace DecodeDigit row n 0 (entry off res))).
    rewrite left_chars_explicit by exact HCL. reflexivity. }
  split; [| split; [| split; [exact Hprefix |]]].
  - intros x s cs bm Hx Hoff Hd.
    cbn [EAN13Reader.left_half].
    destruct (Z.ltb_spec x 6) as [_ | Hx6]; [| lia].
    destruct (Z.ltb_spec (rowOffset s) (size row)) as [_ | Hge]; [| lia].
    cbn [andb]. unfold left_digit. rewrite Hd.
    cbn [StatusIsError flow_return flow_x flow_locals fst snd].
    rewrite left_body_resultString. unfold push_back.
    rewrite left_char_explicit by (apply HCL in Hd; lia).
    repeat split.
  - intros x s cs bm Hx Hoff Hd.
    cbn [EAN13Reader.right_half].
    destruct (Z.ltb_spec x 6) as [_ | Hx6]; [| lia].
    destruct (Z.ltb_spec (rowOffset s) (size row)) as [_ | Hge]; [| lia].
    cbn [andb]. unfold right_digit. rewrite Hd.
    cbn [StatusIsError flow_return flow_x flow_locals fst snd].
    rewrite right_body_resultString. unfold push_back.
    rewrite right_char_explicit by (apply HCR in Hd; cbn in Hd; lia).
    repeat split.
  - intros Hok.
    destruct (decodeMiddle_success DecodeDigit FindGuardPattern row off res HG Hok)
      as (Hf & H6 & Hr & _ & _).
    pose proof (proj1 (left_half_trace DecodeDigit row 6 0 (entry off res))) as HxL.
    destruct (decodeMiddle_paths DecodeDigit FindGuardPattern row off res)
      as [(st & Hf' & _) | [(_ & _ & Ho) | (_ & d & Hd & Hn & [(st & b & e & _ & Hst & Ho)
                                                             | (b & e & _ & _ & Ho)])]].
    + congruence.
    + rewrite Ho in Hok. discriminate Hok.
    + rewrite Ho in Hok. cbn [out_status fst] in Hok. subst st. discriminate Hst.
    + exists d. split; [exact Hd |]. split; [exact Hn |]. split; [lia |].
      split; [apply Hprefix |].
      rewrite Ho. cbn [out_result snd].
      rewrite left_chars_explicit by exact HCL.
      rewrite right_chars_explicit by exact HCR.
      rewrite to_char_small by (unfold zero_char; lia).
      cbn [app]. rewrite <- app_assoc. reflexivity.
Qed.

End Characters.

(** C4, witness: the contracts hold of the reference collaborators, and
    the row of 5 901234 123457 decodes with success; its leading digit is
    5, whose table entry 0x19 is the mask of its six left digits. *)
Lemma decodeMiddle_digit_characters_witness :
  left_matches Ideal.DecodeDigit Ideal.row_5901234123457 6 0 (entry 3 [])
  = [9; 10; 11; 2; 3; 14]
  /\ exists d,
       0 <= d < 10
       /\ nth (Z.to_nat d) FIRST_DIGIT_ENCODINGS 0
          = lgPatternFound (left_exit Ideal.DecodeDigit Ideal.row_5901234123457 3 [])
       /\ length (left_matches Ideal.DecodeDigit Ideal.row_5901234123457 6 0
                    (entry 3 [])) = 6%nat
       /\ resultString (left_exit Ideal.DecodeDigit Ideal.row_5901234123457 3 [])
          = [] ++ map (fun bm => ascii_of_N (Z.to_N (48 + bm mod 10)))
                    (left_matches Ideal.DecodeDigit Ideal.row_5901234123457 6 0
                       (entry 3 []))
       /\ out_result (Ideal.decode Ideal.row_5901234123457 3 [])
          = ascii_of_N (Z.to_N (48 + d))
            :: []
               ++ map (fun bm => ascii_of_N (Z.to_N (48 + bm mod 10)))
                    (left_matches Ideal.DecodeDigit Ideal.row_5901234123457 6 0
                       (entry 3 []))
               ++ map (fun bm => ascii_of_N (Z.to_N (48 + bm)))
                    (right_matches Ideal.DecodeDigit Ideal.row_5901234123457 6 0
                       (right_entry Ideal.DecodeDigit Ideal.FindGuardPattern
                          Ideal.row_5901234123457 3 [])).
Proof.
  split; [vm_compute; reflexivity |].
  apply (proj2 (proj2 (proj2
           (decodeMiddle_digit_characters Ideal.DecodeDigit Ideal.FindGuardPattern
              Ideal.row_5901234123457 3 []
              (ideal_DecodeDigit_index _ _) (ideal_DecodeDigit_index _ _)
              (ideal_FindGuardPattern_span _))))).
  vm_compute. reflexivity.
Defined.
